(** * Burst Capital portfolio jobs scraper: a shallow embedding of
      [.github/workflows/scraper.py] and the properties of its detection
      and extraction engine. *)

From Stdlib Require Import String Ascii List Bool ZArith Lia.
Import ListNotations.
Open Scope string_scope.
Set Warnings "-register-all".

(** ** Python string methods on ASCII strings *)

(** [str.isspace] on ASCII: space, \t \n \v \f \r and \x1c-\x1f. *)
Definition is_space (c : ascii) : bool :=
  let n := nat_of_ascii c in
  Nat.eqb n 32 || (Nat.leb 9 n && Nat.leb n 13) || (Nat.leb 28 n && Nat.leb n 31).

Fixpoint lstrip_by (p : ascii -> bool) (s : string) : string :=
  match s with
  | EmptyString => EmptyString
  | String c s' => if p c then lstrip_by p s' else s
  end.

Fixpoint rstrip_by (p : ascii -> bool) (s : string) : string :=
  match s with
  | EmptyString => EmptyString
  | String c s' =>
      let r := rstrip_by p s' in
      if String.eqb r EmptyString && p c then EmptyString else String c r
  end.

(** [s.strip()] *)
Definition py_strip (s : string) : string :=
  rstrip_by is_space (lstrip_by is_space s).

(** [s.rstrip("/")] *)
Definition rstrip_slash (s : string) : string :=
  rstrip_by (fun c => Ascii.eqb c "/"%char) s.

Definition lower_ascii (c : ascii) : ascii :=
  let n := nat_of_ascii c in
  if Nat.leb 65 n && Nat.leb n 90 then ascii_of_nat (n + 32) else c.

Definition upper_ascii (c : ascii) : ascii :=
  let n := nat_of_ascii c in
  if Nat.leb 97 n && Nat.leb n 122 then ascii_of_nat (n - 32) else c.

(** [s.lower()] *)
Fixpoint py_lower (s : string) : string :=
  match s with
  | EmptyString => EmptyString
  | String c s' => String (lower_ascii c) (py_lower s')
  end.

(** [s.capitalize()]: first character upper case, the rest lower case. *)
Definition py_capitalize (s : string) : string :=
  match s with
  | EmptyString => EmptyString
  | String c s' => String (upper_ascii c) (py_lower s')
  end.

(** [sub in s] *)
Fixpoint py_contains (sub s : string) : bool :=
  String.prefix sub s ||
  match s with
  | EmptyString => false
  | String _ s' => py_contains sub s'
  end.

Definition py_in (x : string) (l : list string) : bool :=
  existsb (String.eqb x) l.

Fixpoint sdrop (n : nat) (s : string) : string :=
  match n, s with
  | O, _ => s
  | S n', EmptyString => EmptyString
  | S n', String _ s' => sdrop n' s'
  end.

Fixpoint take_while (p : ascii -> bool) (s : string) : string :=
  match s with
  | EmptyString => EmptyString
  | String c s' => if p c then String c (take_while p s') else EmptyString
  end.

(** Exactly [n] characters satisfying [p] at the front of [s]. *)
Fixpoint take_exact (p : ascii -> bool) (n : nat) (s : string) : option string :=
  match n, s with
  | O, _ => Some EmptyString
  | S _, EmptyString => None
  | S n', String c s' =>
      if p c then option_map (String c) (take_exact p n' s') else None
  end.

(** [re.search(lit + r'([cls]+)', s).group(1)]: the leftmost occurrence of
    the literal followed by at least one character of the class, with the
    greedy maximal run as group 1. *)
Fixpoint search_run (lit : string) (p : ascii -> bool) (s : string) : option string :=
  match (if String.prefix lit s
         then match take_while p (sdrop (String.length lit) s) with
              | EmptyString => None
              | g => Some g
              end
         else None) with
  | Some g => Some g
  | None =>
      match s with
      | EmptyString => None
      | String _ s' => search_run lit p s'
      end
  end.

(** [re.search(lit + r'([cls]{n})', s).group(1)] *)
Fixpoint search_fixed (lit : string) (p : ascii -> bool) (n : nat) (s : string)
  : option string :=
  match (if String.prefix lit s
         then take_exact p n (sdrop (String.length lit) s)
         else None) with
  | Some g => Some g
  | None =>
      match s with
      | EmptyString => None
      | String _ s' => search_fixed lit p n s'
      end
  end.

(** [[a-zA-Z0-9_-]] *)
Definition is_slug_char (c : ascii) : bool :=
  let n := nat_of_ascii c in
  (Nat.leb 97 n && Nat.leb n 122) || (Nat.leb 65 n && Nat.leb n 90)
  || (Nat.leb 48 n && Nat.leb n 57) || Nat.eqb n 95 || Nat.eqb n 45.

(** [[0-9a-f-]] *)
Definition is_uuid_char (c : ascii) : bool :=
  let n := nat_of_ascii c in
  (Nat.leb 48 n && Nat.leb n 57) || (Nat.leb 97 n && Nat.leb n 102) || Nat.eqb n 45.

(** [[^/]] *)
Definition not_slash (c : ascii) : bool := negb (Ascii.eqb c "/"%char).

(** A case-insensitive alternation of literals, [re.search(r'(k1|k2|...)', s, re.I)]. *)
Definition search_ci (kws : list string) (s : string) : bool :=
  existsb (fun kw => py_contains kw (py_lower s)) kws.

(** ** JSON values, as [json.loads] and [r.json()] produce them *)

Inductive json : Type :=
| JNull
| JBool (b : bool)
| JNum (z : Z)
| JStr (s : string)
| JArr (l : list json)
| JObj (kv : list (string * json)).

(** Python truthiness. *)
Definition truthy (j : json) : bool :=
  match j with
  | JNull => false
  | JBool b => b
  | JNum z => negb (Z.eqb z 0)
  | JStr s => negb (String.eqb s EmptyString)
  | JArr l => match l with [] => false | _ => true end
  | JObj kv => match kv with [] => false | _ => true end
  end.

(** Dictionary lookup; with repeated keys the last one wins. *)
Fixpoint assoc_last {V} (k : string) (kv : list (string * V)) : option V :=
  match kv with
  | [] => None
  | (k', v) :: rest =>
      match assoc_last k rest with
      | Some w => Some w
      | None => if String.eqb k k' then Some v else None
      end
  end.

(** ** Python exceptions and the effect monad

    A computation logs the network calls it makes and either returns a
    value or raises. *)

Inductive exn : Type :=
| ConnectionError   (* requests: timeout, refused connection, DNS, ... *)
| PlaywrightError
| ValueError
| AttributeError
| KeyError
| IndexError
| TypeError.

Inductive call : Type :=
| CGet (url : string)
| CPost (url : string)
| CRender (url : string).

Definition M (A : Type) : Type := (list call * (exn + A))%type.

Definition ret {A} (a : A) : M A := ([], inr a).
Definition raise {A} (e : exn) : M A := ([], inl e).

Definition bind {A B} (m : M A) (f : A -> M B) : M B :=
  let (l1, r) := m in
  match r with
  | inl e => (l1, inl e)
  | inr a => let (l2, r2) := f a in (app l1 l2, r2)
  end.

(** [try: m except Exception: h] *)
Definition catch {A} (m : M A) (h : exn -> M A) : M A :=
  let (l1, r) := m in
  match r with
  | inl e => let (l2, r2) := h e in (app l1 l2, r2)
  | inr a => (l1, inr a)
  end.

Declare Scope py_scope.
Notation "x <- m ;; k" := (bind m (fun x => k))
  (at level 61, m at next level, right associativity) : py_scope.
Notation "' p <- m ;; k" := (bind m (fun x => match x with p => k end))
  (at level 61, p pattern, m at next level, right associativity) : py_scope.
Open Scope py_scope.

Fixpoint foldM {S A} (f : S -> A -> M S) (s : S) (l : list A) : M S :=
  match l with
  | [] => ret s
  | a :: l' => s' <- f s a ;; foldM f s' l'
  end.

Fixpoint mapM {A B} (f : A -> M B) (l : list A) : M (list B) :=
  match l with
  | [] => ret []
  | a :: l' => b <- f a ;; bs <- mapM f l' ;; ret (b :: bs)
  end.

(** [d.get(k, default)]: raises AttributeError unless [d] is a dict. *)
Definition py_get (d : json) (k : string) (default : json) : M json :=
  match d with
  | JObj kv => ret (match assoc_last k kv with Some v => v | None => default end)
  | _ => raise AttributeError
  end.

(** [d[k]] with a string key. *)
Definition py_getitem (d : json) (k : string) : M json :=
  match d with
  | JObj kv => match assoc_last k kv with Some v => ret v | None => raise KeyError end
  | _ => raise TypeError
  end.

(** [x[0]] *)
Definition py_index0 (x : json) : M json :=
  match x with
  | JArr (v :: _) => ret v
  | JArr [] => raise IndexError
  | JStr (String c _) => ret (JStr (String c EmptyString))
  | JStr EmptyString => raise IndexError
  | JObj _ => raise KeyError
  | _ => raise TypeError
  end.

Fixpoint str_chars (s : string) : list json :=
  match s with
  | EmptyString => []
  | String c s' => JStr (String c EmptyString) :: str_chars s'
  end.

(** [for j in x]: lists give their items, dicts their keys, strings
    their characters; anything else is not iterable. *)
Definition py_iter (x : json) : M (list json) :=
  match x with
  | JArr l => ret l
  | JObj kv => ret (map (fun p => JStr (fst p)) kv)
  | JStr s => ret (str_chars s)
  | _ => raise TypeError
  end.

(** [x or y] on JSON values. *)
Definition py_or (x y : json) : json := if truthy x then x else y.

(** ** The collaborators the scraper is written against

    The network ([requests], Playwright) and the third-party parsers
    (BeautifulSoup, [json.loads], [urllib.parse.urljoin] and the free-text
    location regexes) are not code of this repository: they are parameters
    of the development, and every theorem holds for all of them. *)

(** The response of [requests.get]/[requests.post]: status, body text,
    URL after redirects, and [r.json()] ([None] when decoding raises). *)
Record response : Type := {
  status : Z;
  text : string;
  final_url : string;
  json_body : option json
}.

(** [None] from [http_get]/[http_post] is a raised requests exception;
    [None] from [render] is a Playwright failure. *)
Record Net : Type := {
  has_playwright : bool;
  http_get : string -> option response;
  http_post : string -> option response;
  render : string -> option string
}.

(** [soup.find_all("a", href=True)]: the href, the descendant strings, and
    the descendant strings of [a.find_parent()] when there is a parent. *)
Record anchor : Type := {
  a_href : string;
  a_strings : list string;
  a_parent_strings : option (list string)
}.

(** An element carrying a [class] attribute: its classes, the first
    [a] with an href below it ([container.find("a", href=True)]) and its
    descendant strings. *)
Record element : Type := {
  e_classes : list string;
  e_first_a : option anchor;
  e_strings : list string
}.

(** What the scraper queries of [BeautifulSoup(html, "html.parser")], in
    document order: the anchors with an href, the [.string] of every
    [<script type="application/ld+json">], and the elements with a class. *)
Record soup : Type := {
  anchors : list anchor;
  ld_json_scripts : list (option string);
  class_elements : list element
}.

Record Lib : Type := {
  parse : string -> soup;
  json_loads : string -> option json;         (* None: JSONDecodeError *)
  urljoin : string -> string -> option string; (* None: ValueError *)
  loc_embedded : string -> option string;     (* regex of lines 329-332 *)
  loc_hosted : string -> option string;       (* regex of lines 354-356 *)
  loc_generic : string -> option string;      (* regex of lines 499-500 *)
  loc_yc : string -> option string;           (* regex of line 452 *)
  sub_view : string -> string;                (* re.sub(r'\s*View\s*$', '', _) *)
  py_str_other : json -> string               (* str() of a non-string value *)
}.

(** [tag.get_text(sep, strip=True)]: the stripped, non-empty descendant
    strings joined by [sep]. *)
Definition get_text (sep : string) (strings : list string) : string :=
  String.concat sep (filter (fun s => negb (String.eqb s EmptyString)) (map py_strip strings)).

(** ** JobRecord and [make_job] (lines 116-124) *)

Record job : Type := {
  title : string;
  department : string;
  location : string;
  job_url : json;
  company : string;
  company_website : string
}.

(** [(x or default).strip()]: raises AttributeError on a truthy non-string. *)
Definition or_strip (x : json) (default : string) : M string :=
  match py_or x (JStr default) with
  | JStr s => ret (py_strip s)
  | _ => raise AttributeError
  end.

Definition make_job (title : json) (department location url : json)
    (company : string) (company_website : string) : M job :=
  t <- (match title with JStr s => ret (py_strip s) | _ => raise AttributeError end) ;;
  d <- or_strip department "General" ;;
  l <- or_strip location "Not specified" ;;
  ret {| title := t; department := d; location := l; job_url := url;
         company := company; company_website := company_website |}.

(** [for j in jobs: j["company_website"] = website] *)
Definition stamp (website : string) (jobs : list job) : list job :=
  map (fun j => {| title := title j; department := department j;
                   location := location j; job_url := job_url j;
                   company := company j; company_website := website |}) jobs.

(** ** ATS detection (lines 129-171) *)

Inductive ats_kind : Type :=
| Greenhouse | Lever | Ashby | AshbyEmbedded | Workable | Rippling | YC.

Definition detect_ats_from_html (html page_url : string)
  : option ats_kind * option string :=
  if String.eqb html EmptyString then (None, None) else
  if py_contains "ashby_jid=" html then
    match search_run "ashbyhq.com/" is_slug_char html with
    | Some g => (Some Ashby, Some g)
    | None => (Some AshbyEmbedded, Some page_url)
    end else
  if py_contains "jobs.ashbyhq.com" html then
    match search_run "jobs.ashbyhq.com/" is_slug_char html with
    | Some g => (Some Ashby, Some g)
    | None => (None, None)
    end else
  if py_contains "greenhouse.io" html || py_contains "grnh.se" html then
    match search_run "boards.greenhouse.io/" is_slug_char html with
    | Some g => (Some Greenhouse, Some g)
    | None =>
      match search_run "job-boards.greenhouse.io/" is_slug_char html with
      | Some g => (Some Greenhouse, Some g)
      | None =>
        match search_run "greenhouse.io/embed/job_board?for=" is_slug_char html with
        | Some g => (Some Greenhouse, Some g)
        | None => (None, None)
        end
      end
    end else
  if py_contains "lever.co" html then
    match search_run "jobs.lever.co/" is_slug_char html with
    | Some g => (Some Lever, Some g)
    | None => (None, None)
    end else
  if py_contains "apply.workable.com" html || py_contains "workable.com" html then
    match search_run "apply.workable.com/" is_slug_char html with
    | Some g => (Some Workable, Some g)
    | None => (None, None)
    end else
  if py_contains "ats.rippling.com" html || py_contains "rippling-ats.com" html then
    match search_run "ats.rippling.com/" is_slug_char html with
    | Some g => (Some Rippling, Some g)
    | None => (None, None)
    end else
  (None, None).

Definition url_checks : list (string * ats_kind) :=
  [("boards.greenhouse.io/", Greenhouse);
   ("job-boards.greenhouse.io/", Greenhouse);
   ("jobs.lever.co/", Lever);
   ("jobs.ashbyhq.com/", Ashby);
   ("ashbyhq.com/", Ashby);
   ("apply.workable.com/", Workable);
   ("ats.rippling.com/", Rippling)].

Definition detect_ats_from_url (url : string) : option ats_kind * option string :=
  if String.eqb url EmptyString then (None, None) else
  (fix go (checks : list (string * ats_kind)) :=
     match checks with
     | [] => (None, None)
     | (lit, k) :: rest =>
         match search_run lit is_slug_char url with
         | Some g => (Some k, Some g)
         | None => go rest
         end
     end) url_checks.

(** ** The scraper, over a network and a set of parsers *)

Section Scraper.

Variable L : Lib.
Variable N : Net.

Definition requests_get (url : string) : M response :=
  ([CGet url], match http_get N url with Some r => inr r | None => inl ConnectionError end).

Definition requests_post (url : string) : M response :=
  ([CPost url], match http_post N url with Some r => inr r | None => inl ConnectionError end).

(** [r.json()] *)
Definition r_json (r : response) : M json :=
  match json_body r with Some j => ret j | None => raise ValueError end.

Definition playwright_content (url : string) : M string :=
  ([CRender url], match render N url with Some h => inr h | None => inl PlaywrightError end).

(** [fetch_html] (lines 94-113): never raises. *)
Definition fetch_html (url : string) (use_playwright : bool) : M (option string) :=
  pw <- (if use_playwright && has_playwright N
         then catch (h <- playwright_content url ;; ret (Some h)) (fun _ => ret None)
         else ret None) ;;
  match pw with
  | Some h => ret (Some h)
  | None =>
      catch (r <- requests_get url ;;
             ret (if Z.eqb (status r) 200 then Some (text r) else None))
            (fun _ => ret None)
  end.

(** [urljoin(base, href)] *)
Definition py_urljoin (base href : string) : M string :=
  match urljoin L base href with Some u => ret u | None => raise ValueError end.

(** An f-string field [{v}]. *)
Definition fmt (v : json) : string :=
  match v with JStr s => s | _ => py_str_other L v end.

Definition nonempty {A} (l : list A) : bool :=
  match l with [] => false | _ => true end.

(** *** Ashby embedded (lines 308-361) *)

(** One anchor of pattern 1: [?ashby_jid=] links on the company's site. *)
Definition embedded_step1 (jobs_url company : string)
    (s : list job * list string) (a : anchor) : M (list job * list string) :=
  let (jobs, seen) := s in
  let href := a_href a in
  if negb (py_contains "ashby_jid=" href) then ret (jobs, seen) else
  let t := py_strip (sub_view L (get_text "" (a_strings a))) in
  if String.eqb t EmptyString || py_in t seen || Nat.ltb (String.length t) 3
  then ret (jobs, seen) else
  let seen := t :: seen in
  job_url <- (match search_fixed "ashby_jid=" is_uuid_char 36 href with
              | Some u => ret ("https://app.ashbyhq.com/jobs/" ++ u)
              | None => py_urljoin jobs_url href
              end) ;;
  let txt := match a_parent_strings a with Some ps => get_text " " ps | None => "" end in
  let loc := match loc_embedded L txt with Some m => m | None => "" end in
  j <- make_job (JStr t) (JStr "General") (JStr loc) (JStr job_url) company "" ;;
  ret (app jobs [j], seen).

(** One anchor of pattern 2: [jobs.ashbyhq.com/Slug/uuid] links. *)
Definition embedded_step2 (jobs_url company : string) (slug : option string)
    (s : list job * list string) (a : anchor) : M (list job * list string) :=
  let (jobs, seen) := s in
  let href := a_href a in
  full <- py_urljoin jobs_url href ;;
  let skip_slug :=
    match slug with
    | Some sl =>
        negb (String.eqb sl EmptyString)
        && negb (py_contains ("/" ++ sl ++ "/") full)
        && negb (py_contains ("ashbyhq.com/" ++ sl ++ "/") full)
    | None => false
    end in
  if skip_slug then ret (jobs, seen) else
  match search_fixed "/" is_uuid_char 36 full with
  | None => ret (jobs, seen)
  | Some _ =>
    let t := get_text "" (a_strings a) in
    if String.eqb t EmptyString || py_in t seen || Nat.ltb (String.length t) 3
    then ret (jobs, seen) else
    let seen := t :: seen in
    let txt := match a_parent_strings a with Some ps => get_text " " ps | None => "" end in
    let loc := match loc_hosted L txt with Some m => m | None => "" end in
    j <- make_job (JStr t) (JStr "General") (JStr loc) (JStr full) company "" ;;
    ret (app jobs [j], seen)
  end.

Definition scrape_ashby_embedded (jobs_url company : string) : M (list job) :=
  h <- fetch_html jobs_url true ;;
  match h with
  | None => ret []
  | Some html =>
    if String.eqb html EmptyString then ret [] else
    let sp := parse L html in
    '(jobs, seen) <- foldM (embedded_step1 jobs_url company) ([], []) (anchors sp) ;;
    if nonempty jobs then ret jobs else
    let slug := search_run "ashbyhq.com/" not_slash jobs_url in
    '(jobs, _) <- foldM (embedded_step2 jobs_url company slug) (jobs, seen) (anchors sp) ;;
    ret jobs
  end.

(** *** Generic extraction (lines 520-577; the identical definition at
    lines 463-517 is shadowed by it) *)

(** One item of a schema.org script: [Some job] for a JobPosting. *)
Definition schema_item (jobs_url company : string) (item : json) : M (option job) :=
  ty <- py_get item "@type" JNull ;;
  match ty with
  | JStr "JobPosting" =>
      lo <- py_get item "jobLocation" JNull ;;
      let loc_obj := py_or lo (JObj []) in
      ad <- py_get loc_obj "address" JNull ;;
      let addr := py_or ad (JObj []) in
      loc <- (match addr with
              | JObj _ => py_get addr "addressLocality" (JStr "")
              | _ => ret (JStr "")
              end) ;;
      t <- py_get item "title" (JStr "") ;;
      oc <- py_get item "occupationalCategory" (JStr "General") ;;
      u <- py_get item "url" (JStr jobs_url) ;;
      j <- make_job t oc loc u company "" ;;
      ret (Some j)
  | _ => ret None
  end.

(** The items of one script, appended to the shared [jobs] list; an
    exception leaves the jobs appended so far in place and skips the rest
    of the script ([except Exception: pass]). *)
Fixpoint schema_items (jobs_url company : string) (jobs : list job) (items : list json)
  : list job :=
  match items with
  | [] => jobs
  | item :: rest =>
      match snd (schema_item jobs_url company item) with
      | inl _ => jobs
      | inr None => schema_items jobs_url company jobs rest
      | inr (Some j) => schema_items jobs_url company (app jobs [j]) rest
      end
  end.

Definition schema_script (jobs_url company : string) (jobs : list job)
    (script : option string) : list job :=
  match json_loads L (match script with Some s => s | None => "" end) with
  | None => jobs
  | Some d =>
      schema_items jobs_url company jobs (match d with JArr l => l | _ => [d] end)
  end.

(** Strategy 1: schema.org JobPosting markup. *)
Definition schema_jobs (jobs_url company : string) (sp : soup) : list job :=
  fold_left (schema_script jobs_url company) (ld_json_scripts sp) [].

Definition class_keywords : list string :=
  ["job"; "position"; "role"; "opening"; "listing"; "posting"; "career"; "vacancy"].

Definition class_matches (e : element) : bool :=
  existsb (search_ci class_keywords) (e_classes e).

(** Strategy 2, one container. *)
Definition class_step (jobs_url company : string)
    (s : list job * list string) (c : element) : M (list job * list string) :=
  let (jobs, seen) := s in
  match e_first_a c with
  | None => ret (jobs, seen)
  | Some a =>
    let t := get_text "" (a_strings a) in
    if String.eqb t EmptyString || Nat.ltb (String.length t) 3 || py_in t seen
    then ret (jobs, seen) else
    let seen := t :: seen in
    let txt := get_text " " (e_strings c) in
    let loc := match loc_generic L txt with Some m => m | None => "" end in
    u <- py_urljoin jobs_url (a_href a) ;;
    j <- make_job (JStr t) (JStr "General") (JStr loc) (JStr u) company "" ;;
    ret (app jobs [j], seen)
  end.

Definition title_keywords : list string :=
  ["engineer"; "manager"; "designer"; "analyst"; "director"; "specialist";
   "coordinator"; "lead"; "head of"; "vp "; "senior"; "junior"; "intern";
   "developer"; "scientist"; "recruiter"; "executive"; "associate"].

(** Strategy 3, one link. *)
Definition link_step (jobs_url company : string)
    (s : list job * list string) (a : anchor) : M (list job * list string) :=
  let (jobs, seen) := s in
  let t := get_text "" (a_strings a) in
  if Nat.ltb 5 (String.length t) && Nat.ltb (String.length t) 100
     && search_ci title_keywords t then
    full <- py_urljoin jobs_url (a_href a) ;;
    if py_in full seen then ret (jobs, seen) else
    j <- make_job (JStr t) (JStr "General") (JStr "") (JStr full) company "" ;;
    ret (app jobs [j], full :: seen)
  else ret (jobs, seen).

Definition scrape_generic (jobs_url company : string) : M (list job) :=
  if String.eqb jobs_url EmptyString then ret [] else
  h <- fetch_html jobs_url true ;;
  match h with
  | None => ret []
  | Some html =>
    if String.eqb html EmptyString then ret [] else
    if py_contains "ashby_jid=" html then scrape_ashby_embedded jobs_url company else
    let sp := parse L html in
    let jobs := schema_jobs jobs_url company sp in
    if nonempty jobs then ret jobs else
    '(jobs, seen) <- foldM (class_step jobs_url company) (jobs, [])
                          (firstn 150 (filter class_matches (class_elements sp))) ;;
    if nonempty jobs then ret jobs else
    '(jobs, _) <- foldM (link_step jobs_url company) (jobs, seen) (anchors sp) ;;
    ret (firstn 200 jobs)
  end.

(** *** ATS adapters (lines 243-460) *)

Definition greenhouse_api (slug : string) : string :=
  "https://boards-api.greenhouse.io/v1/boards/" ++ slug ++ "/jobs?content=true".

Definition greenhouse_job (company fallback_url : string) (j : json) : M job :=
  depts <- py_get j "departments" (JArr [JObj []]) ;;
  dept <- (if truthy depts then d0 <- py_index0 depts ;; py_getitem d0 "name"
           else ret (JStr "General")) ;;
  lo <- py_get j "location" (JObj []) ;;
  loc <- py_get lo "name" (JStr "") ;;
  t <- py_get j "title" (JStr "") ;;
  u <- py_get j "absolute_url" (JStr fallback_url) ;;
  make_job t dept loc u company "".

Definition scrape_greenhouse (slug company fallback_url : string) : M (list job) :=
  catch (r <- requests_get (greenhouse_api slug) ;;
         d <- r_json r ;;
         js <- py_get d "jobs" (JArr []) ;;
         items <- py_iter js ;;
         mapM (greenhouse_job company fallback_url) items)
        (fun _ => scrape_generic fallback_url company).

Definition lever_api (slug : string) : string :=
  "https://api.lever.co/v0/postings/" ++ slug ++ "?mode=json".

Definition lever_job (company fallback_url : string) (j : json) : M job :=
  cats <- py_get j "categories" (JObj []) ;;
  dd <- py_get cats "department" (JStr "General") ;;
  dept <- py_get cats "team" dd ;;
  l0 <- py_get cats "location" (JStr "") ;;
  locs <- py_get cats "allLocations" (JArr [l0]) ;;
  loc <- (if truthy locs then py_index0 locs else ret (JStr "")) ;;
  t <- py_get j "text" (JStr "") ;;
  u <- py_get j "hostedUrl" (JStr fallback_url) ;;
  make_job t dept loc u company "".

Definition scrape_lever (slug company fallback_url : string) : M (list job) :=
  catch (r <- requests_get (lever_api slug) ;;
         data <- r_json r ;;
         match data with
         | JArr items => mapM (lever_job company fallback_url) items
         | _ => raise ValueError
         end)
        (fun _ => scrape_generic fallback_url company).

Definition ashby_api (slug : string) : string :=
  "https://api.ashbyhq.com/posting-api/job-board/" ++ slug.

(** [a.get(k1) or a.get(k2) or ... or default] *)
Fixpoint get_or (j : json) (keys : list string) (default : json) : M json :=
  match keys with
  | [] => ret default
  | k :: ks => v <- py_get j k JNull ;; if truthy v then ret v else get_or j ks default
  end.

Definition ashby_job (company fallback_url : string) (j : json) : M job :=
  loc <- get_or j ["locationName"; "location"] JNull ;;
  loc <- (if truthy loc then ret loc
          else rem <- py_get j "isRemote" JNull ;;
               ret (JStr (if truthy rem then "Remote" else ""))) ;;
  dept <- get_or j ["departmentName"; "department"; "team"] (JStr "General") ;;
  u <- get_or j ["jobPostingUrl"; "jobUrl"] (JStr fallback_url) ;;
  t <- py_get j "title" (JStr "") ;;
  make_job t dept loc u company "".

(** One iteration of the slug loop: [Some jobs] when it returns. *)
Definition ashby_try (company fallback_url try_slug : string) : M (option (list job)) :=
  catch (r <- requests_get (ashby_api try_slug) ;;
         data <- r_json r ;;
         raw <- get_or data ["jobPostings"; "jobs"] (JArr []) ;;
         items <- py_iter raw ;;
         jobs <- mapM (ashby_job company fallback_url) items ;;
         ret (if nonempty jobs then Some jobs else None))
        (fun _ => ret None).

Fixpoint ashby_loop (company fallback_url : string) (slugs : list string) : M (list job) :=
  match slugs with
  | [] => scrape_ashby_embedded fallback_url company
  | s :: rest =>
      o <- ashby_try company fallback_url s ;;
      match o with
      | Some jobs => ret jobs
      | None => ashby_loop company fallback_url rest
      end
  end.

Definition scrape_ashby (slug company fallback_url : string) : M (list job) :=
  ashby_loop company fallback_url [slug; py_lower slug; py_capitalize slug].

Definition workable_api (slug : string) : string :=
  "https://apply.workable.com/api/v3/accounts/" ++ slug ++ "/jobs".

Definition workable_job (slug company : string) (j : json) : M job :=
  l <- py_get j "location" JNull ;;
  loc <- (if truthy l then lo <- py_get j "location" (JObj []) ;; py_get lo "city" (JStr "")
          else ret (JStr "")) ;;
  rem <- py_get j "remote" JNull ;;
  let loc := if truthy rem then JStr "Remote" else loc in
  t <- py_get j "title" (JStr "") ;;
  dept <- py_get j "department" (JStr "General") ;;
  sc <- py_get j "shortcode" (JStr "") ;;
  make_job t dept loc (JStr ("https://apply.workable.com/" ++ slug ++ "/j/" ++ fmt sc ++ "/"))
           company "".

Definition scrape_workable (slug company fallback_url : string) : M (list job) :=
  catch (r <- requests_post (workable_api slug) ;;
         d <- r_json r ;;
         res <- py_get d "results" (JArr []) ;;
         items <- py_iter res ;;
         mapM (workable_job slug company) items)
        (fun _ => scrape_generic fallback_url company).

Definition rippling_job (slug company fallback_url : string) (j : json) : M job :=
  nm <- py_get j "name" (JStr "") ;;
  t <- py_get j "title" nm ;;
  tm <- py_get j "team" (JStr "General") ;;
  d0 <- py_get j "department" tm ;;
  let dept := py_or d0 (JStr "General") in
  dept <- (match dept with JObj _ => py_get dept "name" (JStr "General") | _ => ret dept end) ;;
  ln <- py_get j "locationName" (JStr "") ;;
  l0 <- py_get j "location" ln ;;
  loc <- (match l0 with
          | JObj _ => n2 <- py_get l0 "name" (JStr "") ;; py_get l0 "city" n2
          | _ => ret l0
          end) ;;
  rem <- py_get j "remote" JNull ;;
  let loc := if truthy rem then JStr "Remote" else loc in
  sl <- py_get j "slug" (JStr "") ;;
  jid <- py_get j "id" sl ;;
  let u := if truthy jid
           then JStr ("https://ats.rippling.com/" ++ slug ++ "/jobs/" ++ fmt jid)
           else JStr fallback_url in
  make_job t dept loc u company "".

Definition scrape_rippling (slug company fallback_url : string) : M (list job) :=
  o <- catch (r <- requests_get ("https://ats.rippling.com/api/v1/" ++ slug ++ "/jobs?limit=200") ;;
              data <- r_json r ;;
              items0 <- (match data with
                         | JArr _ => ret data
                         | _ => res <- py_get data "results" (JArr []) ;; py_get data "jobs" res
                         end) ;;
              items <- py_iter items0 ;;
              jobs <- mapM (rippling_job slug company fallback_url) items ;;
              ret (if nonempty jobs then Some jobs else None))
             (fun _ => ret None) ;;
  match o with
  | Some jobs => ret jobs
  | None =>
      scrape_generic (if String.eqb fallback_url EmptyString
                      then "https://ats.rippling.com/" ++ slug ++ "/jobs"
                      else fallback_url) company
  end.

Definition yc_job (slug company : string) (j : json) : M job :=
  loc <- py_get j "location" (JStr "San Francisco, CA") ;;
  ty <- py_get j "type" (JStr "General") ;;
  dept <- py_get j "subtype" ty ;;
  sl <- py_get j "slug" (JStr "") ;;
  t <- py_get j "title" (JStr "") ;;
  make_job t dept loc
           (JStr ("https://www.ycombinator.com/companies/" ++ slug ++ "/jobs/" ++ fmt sl))
           company "".

Definition yc_html_step (slug company : string)
    (s : list job * list string) (a : anchor) : M (list job * list string) :=
  let (jobs, seen) := s in
  let href := a_href a in
  if negb (py_contains ("/companies/" ++ slug ++ "/jobs/") href) then ret (jobs, seen) else
  let t := get_text "" (a_strings a) in
  if String.eqb t EmptyString || py_in t seen then ret (jobs, seen) else
  let txt := match a_parent_strings a with Some ps => get_text " " ps | None => "" end in
  let loc := match loc_yc L txt with Some m => m | None => "San Francisco, CA" end in
  j <- make_job (JStr t) (JStr "General") (JStr loc)
                (JStr ("https://www.ycombinator.com" ++ href)) company "" ;;
  ret (app jobs [j], t :: seen).

Definition scrape_yc (slug company fallback_url : string) : M (list job) :=
  o <- catch (r <- requests_get ("https://www.ycombinator.com/companies/" ++ slug ++ "/jobs.json") ;;
              d <- r_json r ;;
              items <- py_iter d ;;
              jobs <- mapM (yc_job slug company) items ;;
              ret (if nonempty jobs then Some jobs else None))
             (fun _ => ret None) ;;
  match o with
  | Some jobs => ret jobs
  | None =>
      catch (h <- fetch_html fallback_url false ;;
             match h with
             | None => ret []
             | Some html =>
                 if String.eqb html EmptyString then ret [] else
                 '(jobs, _) <- foldM (yc_html_step slug company) ([], []) (anchors (parse L html)) ;;
                 ret jobs
             end)
            (fun _ => ret [])
  end.

(** [route_to_scraper] (lines 580-596). *)
Definition route_to_scraper (ats : option ats_kind) (slug : option string)
    (name jobs_url : string) : M (list job) :=
  match slug with
  | Some s =>
    if String.eqb s EmptyString then
      match ats with
      | Some Ashby | Some AshbyEmbedded => scrape_ashby_embedded jobs_url name
      | _ => scrape_generic jobs_url name
      end
    else
      match ats with
      | Some Greenhouse => scrape_greenhouse s name jobs_url
      | Some Lever => scrape_lever s name jobs_url
      | Some Ashby => scrape_ashby s name jobs_url
      | Some Workable => scrape_workable s name jobs_url
      | Some YC => scrape_yc s name jobs_url
      | Some Rippling => scrape_rippling s name jobs_url
      | _ => scrape_generic jobs_url name
      end
  | None =>
    match ats with
    | Some Ashby | Some AshbyEmbedded => scrape_ashby_embedded jobs_url name
    | _ => scrape_generic jobs_url name
    end
  end.

(** *** The Jobs-Page Locator: [find_jobs_page] (lines 176-238) *)

Definition JOBS_PATHS : list string :=
  ["/careers"; "/jobs"; "/careers/jobs"; "/careers/openings";
   "/careers/open-roles"; "/careers/positions"; "/careers/listings";
   "/about/careers"; "/company/careers"; "/join"; "/join-us";
   "/open-roles"; "/work-with-us"; "/hiring"; "/openings"; "/career"].

Definition CAREERS_KEYWORDS : list string :=
  ["career"; "job"; "hiring"; "join us"; "open role";
   "we're hiring"; "opening"; "position"; "work with us"].

(** A page found by the locator: (url, ats, slug, html). *)
Definition found : Type := (string * ats_kind * option string * option string)%type.

(** One anchor of [check_page]'s link loop: [Some] ends the loop. *)
Definition check_link (url : string) (a : anchor) : M (option found) :=
  let href := a_href a in
  let txt := py_lower (get_text "" (a_strings a)) in
  let href_lower := py_lower href in
  if existsb (fun kw => py_contains kw href_lower || py_contains kw txt) CAREERS_KEYWORDS then
    full_url <- py_urljoin url href ;;
    if String.eqb (rstrip_slash full_url) (rstrip_slash url) || String.prefix "#" href
    then ret None else
    match detect_ats_from_url full_url with
    | (Some k, slug) => ret (Some (full_url, k, slug, None))
    | (None, _) =>
        sub <- fetch_html full_url false ;;
        match sub with
        | Some sub_html =>
            if String.eqb sub_html EmptyString then ret None else
            match detect_ats_from_html sub_html full_url with
            | (Some k, slug) => ret (Some (full_url, k, slug, Some sub_html))
            | (None, _) => ret None
            end
        | None => ret None
        end
    end
  else ret None.

Fixpoint check_links (url : string) (l : list anchor) : M (option found) :=
  match l with
  | [] => ret None
  | a :: rest =>
      o <- check_link url a ;;
      match o with Some f => ret (Some f) | None => check_links url rest end
  end.

Definition check_page (url html : string) : M (option found) :=
  match detect_ats_from_html html url with
  | (Some k, slug) => ret (Some (url, k, slug, Some html))
  | (None, _) => check_links url (anchors (parse L html))
  end.

(** (jobs_url, ats, slug, html) as the Python function returns it. *)
Definition locator_result : Type :=
  (option string * option ats_kind * option string * option string)%type.

Definition of_found (f : found) : locator_result :=
  let '(u, k, s, h) := f in (Some u, Some k, s, h).

(** One conventional path; [Some] returns from [find_jobs_page]. *)
Definition try_path (base path : string) : M (option locator_result) :=
  catch (r <- requests_get (base ++ path) ;;
         if Z.eqb (status r) 200 && Nat.ltb 500 (String.length (text r)) then
           let fu := final_url r in
           match detect_ats_from_url fu with
           | (Some k, slug) => ret (Some (Some fu, Some k, slug, None))
           | (None, _) =>
               o <- check_page fu (text r) ;;
               match o with
               | Some f => ret (Some (of_found f))
               | None => ret (Some (Some fu, None, None, Some (text r)))
               end
           end
         else ret None)
        (fun _ => ret None).

Fixpoint try_paths (base : string) (paths : list string) : M locator_result :=
  match paths with
  | [] => ret (None, None, None, None)
  | p :: rest =>
      o <- try_path base p ;;
      match o with Some res => ret res | None => try_paths base rest end
  end.

Definition find_jobs_page (base0 : string) : M locator_result :=
  let base := rstrip_slash base0 in
  h <- fetch_html base false ;;
  o <- (match h with
        | Some html => if String.eqb html EmptyString then ret None else check_page base html
        | None => ret None
        end) ;;
  match o with
  | Some f => ret (of_found f)
  | None => try_paths base JOBS_PATHS
  end.

(** *** The Orchestrator: [scrape_company] (lines 601-633) *)

Record company_target : Type := {
  name : string;
  website : option string   (* None: no "website" key *)
}.

Definition KNOWN_ATS : list (string * (ats_kind * option string * string)) :=
  [("faire", (Greenhouse, Some "Faire", "https://boards.greenhouse.io/faire"));
   ("grammarly", (Greenhouse, Some "grammarly", "https://boards.greenhouse.io/grammarly"));
   ("instawork", (Greenhouse, Some "instawork", "https://boards.greenhouse.io/instawork"));
   ("handshake", (AshbyEmbedded, None, "https://joinhandshake.com/careers/"));
   ("lattice", (Greenhouse, Some "lattice", "https://boards.greenhouse.io/lattice"));
   ("ada", (Greenhouse, Some "ada18", "https://job-boards.greenhouse.io/ada18"));
   ("adquick", (Greenhouse, Some "adquick", "https://boards.greenhouse.io/adquick"));
   ("cambly", (Greenhouse, Some "cambly", "https://boards.greenhouse.io/cambly"));
   ("curri", (Greenhouse, Some "curri", "https://boards.greenhouse.io/curri"));
   ("glossgenius", (Greenhouse, Some "glossgenius", "https://boards.greenhouse.io/glossgenius"));
   ("hipcamp", (Greenhouse, Some "hipcamp", "https://boards.greenhouse.io/hipcamp"));
   ("owner", (Lever, Some "owner", "https://jobs.lever.co/owner"));
   ("bounce", (AshbyEmbedded, None, "https://jobs.ashbyhq.com/Bounce"));
   ("lily", (Greenhouse, Some "lilyai", "https://boards.greenhouse.io/lilyai"));
   ("medely", (Greenhouse, Some "medely", "https://boards.greenhouse.io/medely"));
   ("padlet", (Greenhouse, Some "padlet", "https://boards.greenhouse.io/padlet"));
   ("peek", (Greenhouse, Some "peek", "https://boards.greenhouse.io/peek"));
   ("workstream", (Greenhouse, Some "workstream", "https://boards.greenhouse.io/workstream"));
   ("wonderschool", (Ashby, Some "wonderschool", "https://jobs.ashbyhq.com/wonderschool"));
   ("ava", (Ashby, Some "ava", "https://jobs.ashbyhq.com/ava"));
   ("resortpass", (Lever, Some "resortpass", "https://jobs.lever.co/resortpass"));
   ("overflow", (Lever, Some "overflow", "https://jobs.lever.co/overflow"));
   ("huckleberry", (Lever, Some "huckleberry", "https://jobs.lever.co/huckleberry"));
   ("goodtime", (Lever, Some "goodtime", "https://jobs.lever.co/goodtime"));
   ("sourcegraph", (Lever, Some "sourcegraph", "https://jobs.lever.co/sourcegraph"));
   ("liftoff", (Lever, Some "liftoff", "https://jobs.lever.co/liftoff"));
   ("trendsi", (Lever, Some "trendsi", "https://jobs.lever.co/trendsi"));
   ("lilo", (Lever, Some "lilo", "https://jobs.lever.co/lilo"));
   ("willow", (YC, Some "willow", "https://www.ycombinator.com/companies/willow/jobs"));
   ("woz", (YC, Some "woz", "https://www.ycombinator.com/companies/woz/jobs"));
   ("namespace", (YC, Some "namespace", "https://www.ycombinator.com/companies/namespace/jobs"));
   ("sibli", (YC, Some "sibli", "https://www.ycombinator.com/companies/sibli/jobs"));
   ("allstripes (acquired by picnic health)", (Greenhouse, Some "picnichealth", "https://boards.greenhouse.io/picnichealth"));
   ("northstar (acquired by nayya health)", (Greenhouse, Some "nayya", "https://boards.greenhouse.io/nayya"));
   ("via (acquired by justworks)", (Greenhouse, Some "justworks", "https://boards.greenhouse.io/justworks"));
   ("yik yak (acquired by sidechat)", (Greenhouse, Some "sidechat", "https://boards.greenhouse.io/sidechat"));
   ("setter.com (acquired by thumbtack)", (Greenhouse, Some "thumbtackjobs", "https://boards.greenhouse.io/thumbtackjobs"));
   ("assemble (acquired by deel)", (Ashby, Some "deel", "https://jobs.ashbyhq.com/deel"));
   ("carebrain", (Greenhouse, Some "carebrain", "https://boards.greenhouse.io/carebrain"));
   ("sprx technologies", (Greenhouse, Some "sprx", "https://boards.greenhouse.io/sprx"));
   ("resq", (Ashby, Some "ResQ", "https://jobs.ashbyhq.com/ResQ"));
   ("medely", (Ashby, Some "medely", "https://jobs.ashbyhq.com/medely"));
   ("standard fleet", (Ashby, Some "StandardFleet", "https://jobs.ashbyhq.com/StandardFleet"))].

(** [KNOWN_ATS.get(name.lower())] *)
Definition known_ats_get (name : string) : option (ats_kind * option string * string) :=
  assoc_last (py_lower name) KNOWN_ATS.

(** ScrapeOutcome: the jobs and the failure reason ([None] for Python None). *)
Definition outcome : Type := (list job * option string)%type.

Definition website_of (ct : company_target) : string :=
  match website ct with Some w => rstrip_slash w | None => "" end.

(** Step 1: the override, [Some] when it returns. *)
Definition override_step (ct : company_target) : M (option outcome) :=
  match known_ats_get (name ct) with
  | Some (ats, slug, jobs_url) =>
      jobs <- route_to_scraper (Some ats) slug (name ct) jobs_url ;;
      ret (if nonempty jobs then Some (stamp (website_of ct) jobs, None) else None)
  | None => ret None
  end.

(** Step 2: auto-detection. *)
Definition auto_detect (ct : company_target) : M outcome :=
  let website := website_of ct in
  if String.eqb website EmptyString then ret ([], Some "no website") else
  '(jobs_url, ats, slug, _) <- find_jobs_page website ;;
  match jobs_url with
  | Some ju =>
    if String.eqb ju EmptyString then ret ([], Some "no jobs page found") else
    match ats with
    | Some k =>
        jobs <- route_to_scraper (Some k) slug (name ct) ju ;;
        ret (stamp website jobs, None)
    | None =>
        jobs <- scrape_generic ju (name ct) ;;
        ret (stamp website jobs, None)
    end
  | None => ret ([], Some "no jobs page found")
  end.

Definition scrape_company (ct : company_target) : M outcome :=
  o <- override_step ct ;;
  match o with
  | Some out => ret out
  | None => auto_detect ct
  end.

End Scraper.

(** ** Concrete environments

    Small fixed networks and parser tables, used to run the model on
    concrete pages. Each parse table maps an HTML string to the soup
    BeautifulSoup builds for it; the location regexes find nothing (none
    of the pages names a city) and [sub_view] is the identity (no title
    ends in "View"). *)

Definition dq : string := String (ascii_of_nat 34) EmptyString.
Definition q (s : string) : string := dq ++ s ++ dq.

Definition empty_soup : soup :=
  {| anchors := []; ld_json_scripts := []; class_elements := [] |}.

(** [https://host] of an https URL. *)
Definition https_origin (base : string) : string :=
  "https://" ++ take_while (fun c => negb (Ascii.eqb c "/"%char)) (sdrop 8 base).

Definition netloc_of (s : string) : string :=
  take_while (fun c => negb (Ascii.eqb c "/"%char || Ascii.eqb c "?"%char
                             || Ascii.eqb c "#"%char)) s.

(** [urlsplit]'s check: a netloc with an unbalanced bracket raises
    [ValueError("Invalid IPv6 URL")]. *)
Definition bad_ipv6 (netloc : string) : bool :=
  (py_contains "[" netloc && negb (py_contains "]" netloc))
  || (py_contains "]" netloc && negb (py_contains "[" netloc)).

(** [urljoin(base, href)] for an https [base] and an href that is a
    network-path reference ([//host/...]), an absolute URL or a
    root-relative path. *)
Definition fixture_urljoin (base href : string) : option string :=
  if String.prefix "//" href then
    if bad_ipv6 (netloc_of (sdrop 2 href)) then None else Some ("https:" ++ href)
  else if py_contains "://" href then Some href
  else if String.prefix "/" href then Some (https_origin base ++ href)
  else Some (https_origin base ++ "/" ++ href).

Definition mk_lib (pages : list (string * soup)) (docs : list (string * json)) : Lib :=
  {| parse := fun h => match assoc_last h pages with Some s => s | None => empty_soup end;
     json_loads := fun s => assoc_last s docs;
     urljoin := fixture_urljoin;
     loc_embedded := fun _ => None;
     loc_hosted := fun _ => None;
     loc_generic := fun _ => None;
     loc_yc := fun _ => None;
     sub_view := fun s => s;
     py_str_other := fun _ => EmptyString |}.

(** Plain HTTP only (Playwright not installed); unlisted URLs are unreachable. *)
Definition mk_net (gets : list (string * response)) : Net :=
  {| has_playwright := false;
     http_get := fun u => assoc_last u gets;
     http_post := fun _ => None;
     render := fun _ => None |}.

Definition ok200 (url body : string) (j : option json) : response :=
  {| status := 200; text := body; final_url := url; json_body := j |}.

Definition lib0 : Lib := mk_lib [] [].
Definition net_down : Net := mk_net [].

Definition acme : company_target := {| name := "Acme"; website := Some "https://acme.com" |}.
Definition acme_no_site : company_target := {| name := "Acme"; website := None |}.
Definition faire : company_target := {| name := "Faire"; website := Some "https://faire.com" |}.
Definition faire_no_site : company_target := {| name := "Faire"; website := None |}.

(** Greenhouse answering for Faire with one posting. *)
Definition faire_board : json :=
  JObj [("jobs", JArr [JObj [("title", JStr "Engineer");
                              ("departments", JArr [JObj [("name", JStr "Eng")]]);
                              ("location", JObj [("name", JStr "Remote")]);
                              ("absolute_url", JStr "https://boards.greenhouse.io/faire/jobs/1")]])].

Definition net_faire : Net :=
  mk_net [(greenhouse_api "Faire", ok200 (greenhouse_api "Faire") "{}" (Some faire_board))].

(** A homepage whose careers link has a malformed host. *)
Definition bad_link : anchor :=
  {| a_href := "//[careers"; a_strings := ["Careers"]; a_parent_strings := Some ["Careers"] |}.
Definition acme_home : string := "<a href='//[careers'>Careers</a>".
Definition lib_bad_home : Lib :=
  mk_lib [(acme_home, {| anchors := [bad_link]; ld_json_scripts := []; class_elements := [] |})] [].
Definition net_bad_home : Net := mk_net [("https://acme.com", ok200 "https://acme.com" acme_home None)].

(** A careers page with schema.org markup, a class-keyword container and
    the embedded-widget marker in a script. *)
Definition posting_script : string :=
  "{" ++ q "@type" ++ ": " ++ q "JobPosting" ++ ", " ++ q "title" ++ ": " ++ q "Engineer" ++ "}".
Definition posting_link : anchor :=
  {| a_href := "/jobs/1"; a_strings := ["Engineer"]; a_parent_strings := Some ["Engineer"] |}.
Definition mixed_page : string :=
  "<script type='application/ld+json'>" ++ posting_script ++ "</script>"
  ++ "<div class='job-listing'><a href='/jobs/1'>Engineer</a></div>"
  ++ "<script>var marker='?ashby_jid=';</script>".
Definition mixed_soup : soup :=
  {| anchors := [posting_link];
     ld_json_scripts := [Some posting_script];
     class_elements := [{| e_classes := ["job-listing"]; e_first_a := Some posting_link;
                           e_strings := ["Engineer"] |}] |}.
Definition lib_mixed : Lib :=
  mk_lib [(mixed_page, mixed_soup)]
         [(posting_script, JObj [("@type", JStr "JobPosting"); ("title", JStr "Engineer")])].
Definition net_mixed : Net :=
  mk_net [("https://acme.com/careers", ok200 "https://acme.com/careers" mixed_page None)].

(** The same page without the marker. *)
Definition schema_page : string :=
  "<script type='application/ld+json'>" ++ posting_script ++ "</script>"
  ++ "<div class='job-listing'><a href='/jobs/1'>Engineer</a></div>".
Definition lib_schema : Lib :=
  mk_lib [(schema_page, mixed_soup)]
         [(posting_script, JObj [("@type", JStr "JobPosting"); ("title", JStr "Engineer")])].
Definition net_schema : Net :=
  mk_net [("https://acme.com/careers", ok200 "https://acme.com/careers" schema_page None)].

(** Lever answering with an error object; the fallback page has a job
    container whose link has a malformed host. *)
Definition lever_fallback : string := "https://jobs.lever.co/acme".
Definition bad_job_link : anchor :=
  {| a_href := "//[senior-engineer"; a_strings := ["Senior Engineer"];
     a_parent_strings := Some ["Senior Engineer"] |}.
Definition bad_job_page : string := "<div class='job'><a href='//[senior-engineer'>Senior Engineer</a></div>".
Definition lib_bad_job : Lib :=
  mk_lib [(bad_job_page, {| anchors := [bad_job_link]; ld_json_scripts := [];
                            class_elements := [{| e_classes := ["job"]; e_first_a := Some bad_job_link;
                                                  e_strings := ["Senior Engineer"] |}] |})] [].
Definition lever_error : json := JObj [("ok", JBool false); ("error", JStr "Document not found")].
Definition net_lever_error : Net :=
  mk_net [(lever_api "acme", ok200 (lever_api "acme") "{}" (Some lever_error));
          (lever_fallback, ok200 lever_fallback bad_job_page None)].
Definition net_lever_ok_page : Net :=
  mk_net [(lever_api "acme", ok200 (lever_api "acme") "{}" (Some lever_error));
          (lever_fallback, ok200 lever_fallback schema_page None)].

(** Ashby: the as-given slug "ResQ" finds nothing, "resq" has one posting. *)
Definition ashby_board : json :=
  JObj [("jobs", JArr [JObj [("title", JStr "Engineer"); ("jobUrl", JStr "https://jobs.ashbyhq.com/resq/1")]])].
Definition net_ashby : Net :=
  mk_net [(ashby_api "ResQ", ok200 (ashby_api "ResQ") "{}" (Some (JObj [("jobs", JArr [])])));
          (ashby_api "resq", ok200 (ashby_api "resq") "{}" (Some ashby_board))].

Definition resq_fallback : string := "https://resq.com/careers".

(** An embedded Ashby page listing the same role twice. *)
Definition jid : string := "0123abcd-0123-4567-89ab-0123456789ab".
Definition jid_link (t : string) : anchor :=
  {| a_href := "/careers?ashby_jid=" ++ jid; a_strings := [t]; a_parent_strings := Some [t] |}.
Definition embedded_page : string :=
  "<ul><li><a href='/careers?ashby_jid=" ++ jid ++ "'>Engineer</a></li>"
  ++ "<li><a href='/careers?ashby_jid=" ++ jid ++ "'> Engineer </a></li></ul>".
Definition lib_embedded : Lib :=
  mk_lib [(embedded_page, {| anchors := [jid_link "Engineer"; jid_link " Engineer "];
                             ld_json_scripts := []; class_elements := [] |})] [].
Definition net_embedded : Net :=
  mk_net [("https://acme.com/careers", ok200 "https://acme.com/careers" embedded_page None)].

(** Greenhouse answering for Acme with a posting that has no "departments". *)
Definition gh_no_dept_job : list (string * json) := [("title", JStr "Engineer")].
Definition gh_no_dept_board : json := JObj [("jobs", JArr [JObj gh_no_dept_job])].
Definition net_gh_no_dept : Net :=
  mk_net [(greenhouse_api "acme", ok200 (greenhouse_api "acme") "{}" (Some gh_no_dept_board));
          ("https://acme.com/careers", ok200 "https://acme.com/careers" schema_page None)].

(** A careers page with a class-keyword job container and no schema.org markup. *)
Definition class_page : string := "<div class='job'><a href='/jobs/1'>Engineer</a></div>".
Definition lib_class : Lib :=
  mk_lib [(class_page, {| anchors := [posting_link]; ld_json_scripts := [];
                          class_elements := [{| e_classes := ["job"]; e_first_a := Some posting_link;
                                                e_strings := ["Engineer"] |}] |})] [].
Definition net_class : Net :=
  mk_net [("https://acme.com/careers", ok200 "https://acme.com/careers" class_page None)].

(** No leading or trailing whitespace. *)
Definition stripped (s : string) : Prop :=
  lstrip_by is_space s = s /\ rstrip_by is_space s = s.

(** The seen-set invariant of the title-deduplicating loops. *)
Definition titles_unique (st : list job * list string) : Prop :=
  NoDup (map title (fst st)) /\ incl (map title (fst st)) (snd st).

Definition all_company (c : string) (js : list job) : Prop :=
  Forall (fun j => company j = c) js.

Fixpoint str_forall (p : ascii -> bool) (s : string) : bool :=
  match s with EmptyString => true | String c s' => p c && str_forall p s' end.

Definition embedded_quality (js : list job) : Prop :=
  Forall (fun j => department j = "General" /\ 3 <= String.length (title j) /\ stripped (title j)) js.

(** ** The entry point

    [main] (the loop over the companies and the output dict).  The list of
    companies is the one loaded from [COMPANIES_FILE] and filtered; the time
    stamp [generated_at], the delay between companies, the logging and the
    writing of [OUTPUT_FILE] are left out.  [exn_str] is [str(e)]. *)

(** {"name": ..., "reason": ...} *)
Definition failure : Type := (string * string)%type.

Record run_output : Type := {
  total_jobs : nat;
  total_companies : nat;
  companies_with_jobs : nat;
  failed_companies : list failure;
  jobs : list job
}.

Definition main_step (L : Lib) (N : Net) (exn_str : exn -> string)
    (acc : list call * (list job * list failure)) (ct : company_target)
  : list call * (list job * list failure) :=
  let '(calls, (all_jobs, failed)) := acc in
  let (l, r) := scrape_company L N ct in
  (app calls l,
   match r with
   | inr (js, error) =>
       (app all_jobs js,
        match error with
        | Some e => if String.eqb e EmptyString then failed else app failed [(name ct, e)]
        | None => failed
        end)
   | inl e => (all_jobs, app failed [(name ct, exn_str e)])
   end).

Definition main_run (L : Lib) (N : Net) (exn_str : exn -> string)
    (companies : list company_target) : list call * run_output :=
  let '(calls, (all_jobs, failed)) := fold_left (main_step L N exn_str) companies ([], ([], [])) in
  (calls,
   {| total_jobs := length all_jobs;
      total_companies := length companies;
      companies_with_jobs := length (nodup string_dec (map company all_jobs));
      failed_companies := failed;
      jobs := all_jobs |}).

Definition jobs_of (L : Lib) (N : Net) (ct : company_target) : list job :=
  match snd (scrape_company L N ct) with inr (js, _) => js | inl _ => [] end.

Definition failures_of (L : Lib) (N : Net) (exn_str : exn -> string) (ct : company_target)
  : list failure :=
  match snd (scrape_company L N ct) with
  | inr (_, Some e) => if String.eqb e EmptyString then [] else [(name ct, e)]
  | inr (_, None) => []
  | inl e => [(name ct, exn_str e)]
  end.

(** * Properties *)

(** ** Stripping *)

Lemma lstrip_by_length (p : ascii -> bool) (s : string) :
  String.length (lstrip_by p s) <= String.length s.
Proof.
  induction s as [|c s IH]; simpl; [lia|].
  destruct (p c); simpl; lia.
Qed.

Lemma lstrip_by_idem (p : ascii -> bool) (s : string) :
  lstrip_by p (lstrip_by p s) = lstrip_by p s.
Proof.
  induction s as [|c s IH]; simpl; [reflexivity|].
  destruct (p c) eqn:Hc; [exact IH|]. simpl. now rewrite Hc.
Qed.

Lemma rstrip_by_idem (p : ascii -> bool) (s : string) :
  rstrip_by p (rstrip_by p s) = rstrip_by p s.
Proof.
  induction s as [|c s IH]; simpl; [reflexivity|].
  destruct (String.eqb (rstrip_by p s) EmptyString && p c) eqn:E; [reflexivity|].
  simpl. rewrite IH, E. reflexivity.
Qed.

Lemma lstrip_rstrip_lstrip (p : ascii -> bool) (s : string) :
  lstrip_by p (rstrip_by p (lstrip_by p s)) = rstrip_by p (lstrip_by p s).
Proof.
  induction s as [|c s IH]; simpl; [reflexivity|].
  destruct (p c) eqn:Hc; [exact IH|]. simpl.
  rewrite Hc, andb_false_r. simpl. now rewrite Hc.
Qed.

Lemma py_strip_idem (s : string) : py_strip (py_strip s) = py_strip s.
Proof.
  unfold py_strip. rewrite lstrip_rstrip_lstrip. apply rstrip_by_idem.
Qed.

Lemma rstrip_by_app (p : ascii -> bool) (a b : string) :
  rstrip_by p b <> EmptyString ->
  rstrip_by p (a ++ b) = a ++ rstrip_by p b.
Proof.
  intro Hb. induction a as [|c a IH]; simpl; [reflexivity|].
  rewrite IH. destruct (String.eqb (a ++ rstrip_by p b) EmptyString) eqn:E; [|reflexivity].
  apply String.eqb_eq in E. destruct a; simpl in E; [contradiction|discriminate].
Qed.

Lemma append_empty_r (s : string) : s ++ EmptyString = s.
Proof. induction s as [|c s IH]; simpl; [reflexivity|now rewrite IH]. Qed.

Lemma stripped_of_strip (s : string) : py_strip s = s -> stripped s.
Proof.
  unfold py_strip. intro H.
  assert (Hl : lstrip_by is_space s = s).
  { destruct (String.eqb (lstrip_by is_space s) s) eqn:E; [now apply String.eqb_eq|].
    exfalso. apply String.eqb_neq in E.
    assert (Hlen : String.length (lstrip_by is_space s) < String.length s).
    { clear H. induction s as [|c s' IH]; simpl in *; [contradiction|].
      destruct (is_space c); [pose proof (lstrip_by_length is_space s'); lia|contradiction]. }
    pose proof (f_equal String.length H) as H'.
    rewrite <- H' in Hlen.
    (* rstrip does not lengthen *)
    assert (forall t, String.length (rstrip_by is_space t) <= String.length t) as Hr.
    { induction t as [|c t IHt]; simpl; [lia|].
      destruct (String.eqb (rstrip_by is_space t) EmptyString && is_space c); simpl; lia. }
    specialize (Hr (lstrip_by is_space s)). lia. }
  split; [exact Hl|]. rewrite Hl in H. exact H.
Qed.

Lemma strip_stripped (s : string) : stripped s -> py_strip s = s.
Proof. intros [Hl Hr]. unfold py_strip. now rewrite Hl, Hr. Qed.

Lemma stripped_app (a b : string) :
  a <> EmptyString -> stripped a -> stripped b -> stripped (a ++ b).
Proof.
  intros Ha [Hal Har] [Hbl Hbr]. split.
  - destruct a as [|c a']; [contradiction|]. simpl in *.
    destruct (is_space c) eqn:Hc; [|reflexivity].
    exfalso. pose proof (lstrip_by_length is_space a') as Hlen.
    rewrite Hal in Hlen. simpl in Hlen. lia.
  - destruct b as [|c b'].
    + rewrite append_empty_r. exact Har.
    + rewrite rstrip_by_app; rewrite Hbr; [reflexivity|discriminate].
Qed.

Lemma get_text_stripped (ss : list string) : py_strip (get_text "" ss) = get_text "" ss.
Proof.
  apply strip_stripped. unfold get_text.
  assert (Hall : Forall (fun x => x <> EmptyString /\ stripped x)
                   (filter (fun s => negb (String.eqb s EmptyString)) (map py_strip ss))).
  { apply Forall_forall. intros x Hx. apply filter_In in Hx as [Hx Hne].
    apply in_map_iff in Hx as [y [<- _]]. split.
    - intro E. rewrite E in Hne. discriminate.
    - apply stripped_of_strip, py_strip_idem. }
  induction Hall as [|x xs [Hx Hsx] Hxs IH]; [split; reflexivity|].
  destruct xs as [|y ys]; [exact Hsx|].
  change (String.concat "" (x :: y :: ys)) with (x ++ "" ++ String.concat "" (y :: ys)).
  simpl (("" ++ _)%string). apply stripped_app; assumption.
Qed.

(** ** The effect monad *)

Lemma bind_inr {A B} (m : M A) (f : A -> M B) (l : list call) (b : B) :
  bind m f = (l, inr b) ->
  exists l1 a l2, m = (l1, inr a) /\ f a = (l2, inr b) /\ l = app l1 l2.
Proof.
  unfold bind. destruct m as [l1 [e|a]]; [discriminate|].
  destruct (f a) as [l2 r2] eqn:E. intro H. inversion H; subst.
  exists l1, a, l2. auto.
Qed.

Lemma ret_inr {A} (a b : A) (l : list call) : ret a = (l, inr b) -> l = [] /\ a = b.
Proof. unfold ret. intro H. inversion H. auto. Qed.

Lemma foldM_inv {S A} (I : S -> Prop) (f : S -> A -> M S) :
  (forall s a l s', I s -> f s a = (l, inr s') -> I s') ->
  forall xs s l s', I s -> foldM f s xs = (l, inr s') -> I s'.
Proof.
  intros Hf xs. induction xs as [|a xs IH]; simpl; intros s l s' Hs H.
  - apply ret_inr in H as [_ <-]. exact Hs.
  - apply bind_inr in H as (l1 & s1 & l2 & H1 & H2 & _).
    eapply IH; [|exact H2]. eapply Hf; eauto.
Qed.

Lemma make_job_title (t : string) (d l u : json) (c w : string) (lg : list call) (j : job) :
  make_job (JStr t) d l u c w = (lg, inr j) -> title j = py_strip t.
Proof.
  unfold make_job. intro H.
  apply bind_inr in H as (l1 & t' & l2 & H1 & H2 & _).
  apply ret_inr in H1 as [_ <-].
  apply bind_inr in H2 as (l3 & d' & l4 & _ & H3 & _).
  apply bind_inr in H3 as (l5 & l' & l6 & _ & H4 & _).
  apply ret_inr in H4 as [_ <-]. reflexivity.
Qed.

(** Adding a title that is stripped and not yet seen keeps titles unique. *)
Lemma titles_unique_add (jobs : list job) (seen : list string) (t : string) (j : job) :
  titles_unique (jobs, seen) -> py_in t seen = false -> title j = t ->
  titles_unique (app jobs [j], t :: seen).
Proof.
  unfold titles_unique. intros [Hnd Hinc] Hnot Hj. simpl in *. rewrite map_app. simpl. rewrite Hj. split.
  - apply NoDup_app; [exact Hnd|constructor; [intros []|constructor]|].
    intros x Hx [Hxt|[]]. subst x. apply Hinc in Hx.
    assert (Hex : existsb (String.eqb t) seen = true).
    { apply existsb_exists. exists t. split; [exact Hx|apply String.eqb_refl]. }
    unfold py_in in Hnot. congruence.
  - intros x Hx. apply in_app_or in Hx as [Hx|[<-|[]]].
    + right. now apply Hinc.
    + left. reflexivity.
Qed.

Lemma embedded_step1_unique (jobs_url company : string) (L : Lib) (N : Net) :
  forall s a l s', titles_unique s -> embedded_step1 L jobs_url company s a = (l, inr s') ->
  titles_unique s'.
Proof.
  intros [jobs seen] a l s' Hs H. unfold embedded_step1 in H.
  destruct (negb (py_contains "ashby_jid=" (a_href a))).
  { apply ret_inr in H as [_ <-]. exact Hs. }
  set (t := py_strip (sub_view L (get_text "" (a_strings a)))) in H.
  destruct (String.eqb t EmptyString || py_in t seen || Nat.ltb (String.length t) 3) eqn:Ht.
  { apply ret_inr in H as [_ <-]. exact Hs. }
  apply orb_false_iff in Ht as [Ht _]. apply orb_false_iff in Ht as [_ Hseen].
  apply bind_inr in H as (l1 & u & l2 & _ & H & _).
  apply bind_inr in H as (l3 & j & l4 & Hj & H & _).
  apply ret_inr in H as [_ <-].
  apply make_job_title in Hj. unfold t in Hj. rewrite py_strip_idem in Hj.
  apply titles_unique_add; assumption.
Qed.

Lemma embedded_step2_unique (jobs_url company : string) (slug : option string)
    (L : Lib) (N : Net) :
  forall s a l s', titles_unique s ->
  embedded_step2 L jobs_url company slug s a = (l, inr s') -> titles_unique s'.
Proof.
  intros [jobs seen] a l s' Hs H. unfold embedded_step2 in H.
  apply bind_inr in H as (l1 & full & l2 & _ & H & _).
  match type of H with
  | (if ?b then _ else _) = _ => destruct b
  end.
  { apply ret_inr in H as [_ <-]. exact Hs. }
  destruct (search_fixed "/" is_uuid_char 36 full).
  2:{ apply ret_inr in H as [_ <-]. exact Hs. }
  set (t := get_text "" (a_strings a)) in H.
  destruct (String.eqb t EmptyString || py_in t seen || Nat.ltb (String.length t) 3) eqn:Ht.
  { apply ret_inr in H as [_ <-]. exact Hs. }
  apply orb_false_iff in Ht as [Ht _]. apply orb_false_iff in Ht as [_ Hseen].
  apply bind_inr in H as (l3 & j & l4 & Hj & H & _).
  apply ret_inr in H as [_ <-].
  apply make_job_title in Hj. unfold t in Hj. rewrite get_text_stripped in Hj.
  apply titles_unique_add; assumption.
Qed.

(** ** C10: the embedded Ashby scraper never returns two jobs with the same title *)

(** C10: for every page and company, the jobs returned by
    [scrape_ashby_embedded] have pairwise distinct titles: one seen-set of
    titles guards both link patterns. *)
Theorem ashby_embedded_titles_nodup (L : Lib) (N : Net) (jobs_url company : string)
    (l : list call) (js : list job) :
  scrape_ashby_embedded L N jobs_url company = (l, inr js) ->
  NoDup (map title js).
Proof.
  unfold scrape_ashby_embedded. intro H.
  apply bind_inr in H as (l1 & h & l2 & _ & H & _).
  destruct h as [html|]; [|apply ret_inr in H as [_ <-]; constructor].
  destruct (String.eqb html EmptyString); [apply ret_inr in H as [_ <-]; constructor|].
  apply bind_inr in H as (l3 & [jobs seen] & l4 & H1 & H & _).
  assert (I1 : titles_unique (jobs, seen)).
  { refine (foldM_inv titles_unique _ (embedded_step1_unique jobs_url company L N) _ ([], []) _ _ _ H1).
    split; [constructor|intros x []]. }
  destruct (nonempty jobs).
  { apply ret_inr in H as [_ <-]. exact (proj1 I1). }
  apply bind_inr in H as (l5 & [jobs2 seen2] & l6 & H2 & H & _).
  apply ret_inr in H as [_ <-].
  assert (I2 : titles_unique (jobs2, seen2)).
  { exact (foldM_inv titles_unique _
             (embedded_step2_unique jobs_url company (search_run "ashbyhq.com/" not_slash jobs_url) L N)
             _ _ _ _ I1 H2). }
  exact (proj1 I2).
Qed.

(** Witness: a page listing "Engineer" twice yields it once. *)
Lemma ashby_embedded_titles_nodup_witness :
  scrape_ashby_embedded lib_embedded net_embedded "https://acme.com/careers" "Acme"
  = ([CGet "https://acme.com/careers"],
     inr [{| title := "Engineer"; department := "General"; location := "Not specified";
             job_url := JStr ("https://app.ashbyhq.com/jobs/" ++ jid);
             company := "Acme"; company_website := "" |}])
  /\ NoDup ["Engineer"].
Proof.
  split; [vm_compute; reflexivity|].
  exact (ashby_embedded_titles_nodup lib_embedded net_embedded "https://acme.com/careers" "Acme"
           [CGet "https://acme.com/careers"]
           [{| title := "Engineer"; department := "General"; location := "Not specified";
               job_url := JStr ("https://app.ashbyhq.com/jobs/" ++ jid);
               company := "Acme"; company_website := "" |}]
           ltac:(vm_compute; reflexivity)).
Defined.


(** ** C2: the HTML classifier when a signature is found but no slug *)

Ltac detect_cases :=
  repeat match goal with
         | |- context [if ?b then _ else _] => destruct b
         | |- context [match ?x with Some _ => _ | None => _ end] => destruct x
         end.

(** C2 (amended): only the embedded-widget marker yields a kind without
    an extracted slug, and then the slug is the page URL: with
    ["ashby_jid="] present and no [ashbyhq.com/<slug>], the result is
    [("ashby_embedded", page_url)]. The classifier never pairs a kind with
    an absent slug: for every other signature (jobs.ashbyhq.com,
    greenhouse.io/grnh.se, lever.co, workable.com, rippling) that is the
    first one present but whose slug patterns fail, it returns
    [(None, None)]. *)
Theorem detect_html_signature_without_slug (html page_url : string) :
  (py_contains "ashby_jid=" html = true ->
   search_run "ashbyhq.com/" is_slug_char html = None ->
   detect_ats_from_html html page_url = (Some AshbyEmbedded, Some page_url))
  /\ (forall k, detect_ats_from_html html page_url <> (Some k, None))
  /\ (py_contains "ashby_jid=" html = false ->
      py_contains "jobs.ashbyhq.com" html = true ->
      search_run "jobs.ashbyhq.com/" is_slug_char html = None ->
      detect_ats_from_html html page_url = (None, None))
  /\ (py_contains "ashby_jid=" html = false ->
      py_contains "jobs.ashbyhq.com" html = false ->
      py_contains "greenhouse.io" html || py_contains "grnh.se" html = true ->
      search_run "boards.greenhouse.io/" is_slug_char html = None ->
      search_run "job-boards.greenhouse.io/" is_slug_char html = None ->
      search_run "greenhouse.io/embed/job_board?for=" is_slug_char html = None ->
      detect_ats_from_html html page_url = (None, None))
  /\ (py_contains "ashby_jid=" html = false ->
      py_contains "jobs.ashbyhq.com" html = false ->
      py_contains "greenhouse.io" html || py_contains "grnh.se" html = false ->
      py_contains "lever.co" html = true ->
      search_run "jobs.lever.co/" is_slug_char html = None ->
      detect_ats_from_html html page_url = (None, None))
  /\ (py_contains "ashby_jid=" html = false ->
      py_contains "jobs.ashbyhq.com" html = false ->
      py_contains "greenhouse.io" html || py_contains "grnh.se" html = false ->
      py_contains "lever.co" html = false ->
      py_contains "apply.workable.com" html || py_contains "workable.com" html = true ->
      search_run "apply.workable.com/" is_slug_char html = None ->
      detect_ats_from_html html page_url = (None, None))
  /\ (py_contains "ashby_jid=" html = false ->
      py_contains "jobs.ashbyhq.com" html = false ->
      py_contains "greenhouse.io" html || py_contains "grnh.se" html = false ->
      py_contains "lever.co" html = false ->
      py_contains "apply.workable.com" html || py_contains "workable.com" html = false ->
      py_contains "ats.rippling.com" html || py_contains "rippling-ats.com" html = true ->
      search_run "ats.rippling.com/" is_slug_char html = None ->
      detect_ats_from_html html page_url = (None, None)).
Proof.
  unfold detect_ats_from_html.
  destruct (String.eqb html EmptyString) eqn:E.
  { apply String.eqb_eq in E. subst html.
    repeat split; try discriminate; intros; reflexivity. }
  repeat split.
  - intros H1 H2. rewrite H1, H2. reflexivity.
  - intro k. detect_cases; discriminate.
  - intros H1 H2 H3. rewrite H1, H2, H3. reflexivity.
  - intros H1 H2 H3 H4 H5 H6. rewrite H1, H2, H3, H4, H5, H6. reflexivity.
  - intros H1 H2 H3 H4 H5. rewrite H1, H2, H3, H4, H5. reflexivity.
  - intros H1 H2 H3 H4 H5 H6. rewrite H1, H2, H3, H4, H5, H6. reflexivity.
  - intros H1 H2 H3 H4 H5 H6 H7. rewrite H1, H2, H3, H4, H5, H6, H7. reflexivity.
Qed.

(** Witness: an embedded widget page without an Ashby-hosted link, and a
    page that only loads a Greenhouse script. *)
Lemma detect_html_signature_without_slug_witness :
  detect_ats_from_html "<a href='/careers?ashby_jid=42'>Engineer</a>" "https://acme.com/careers"
    = (Some AshbyEmbedded, Some "https://acme.com/careers")
  /\ detect_ats_from_html "<script src='https://greenhouse.io/x.js'></script>" "https://acme.com"
    = (None, None).
Proof.
  split.
  - apply (proj1 (detect_html_signature_without_slug
                    "<a href='/careers?ashby_jid=42'>Engineer</a>" "https://acme.com/careers"));
      vm_compute; reflexivity.
  - apply (proj1 (proj2 (proj2 (proj2 (detect_html_signature_without_slug
                    "<script src='https://greenhouse.io/x.js'></script>" "https://acme.com")))));
      vm_compute; reflexivity.
Defined.

(** C2 as stated fails: a page carrying the Greenhouse signature but no
    board link is classified as unknown [(None, None)], not as
    [(greenhouse, absent)]. *)
Lemma detect_html_signature_without_slug_counterexample :
  py_contains "greenhouse.io" "<script src='https://greenhouse.io/x.js'></script>" = true
  /\ search_run "boards.greenhouse.io/" is_slug_char "<script src='https://greenhouse.io/x.js'></script>" = None
  /\ search_run "job-boards.greenhouse.io/" is_slug_char "<script src='https://greenhouse.io/x.js'></script>" = None
  /\ search_run "greenhouse.io/embed/job_board?for=" is_slug_char "<script src='https://greenhouse.io/x.js'></script>" = None
  /\ detect_ats_from_html "<script src='https://greenhouse.io/x.js'></script>" "https://acme.com"
     = (None, None)
  /\ detect_ats_from_html "<script src='https://greenhouse.io/x.js'></script>" "https://acme.com"
     <> (Some Greenhouse, None).
Proof. vm_compute. repeat split; discriminate. Qed.

(** ** C3: normalisation defaults *)

(** C3 (amended): every adapter normalises through [make_job]. With a
    string title (adapters pass "" when the source title is absent), the
    record's title is the stripped source title. Each of department and
    location, absent (None) or a string, gets its own default: an absent
    or empty department becomes "General", an absent or empty location
    "Not specified" (not ""); a non-empty value is kept, stripped. *)
Theorem make_job_defaults (t : string) (d l u : json) (c w : string) :
  (d = JNull \/ exists sd, d = JStr sd) -> (l = JNull \/ exists sl, l = JStr sl) ->
  make_job (JStr t) d l u c w
  = ret {| title := py_strip t;
           department := match d with
                         | JStr sd => if String.eqb sd EmptyString then "General" else py_strip sd
                         | _ => "General"
                         end;
           location := match l with
                       | JStr sl => if String.eqb sl EmptyString then "Not specified" else py_strip sl
                       | _ => "Not specified"
                       end;
           job_url := u; company := c; company_website := w |}.
Proof.
  intros Hd Hl.
  destruct Hd as [->|[sd ->]]; destruct Hl as [->|[sl ->]];
    unfold make_job, or_strip, py_or; cbn [truthy];
    repeat match goal with |- context [String.eqb ?x EmptyString] =>
      destruct (String.eqb x EmptyString) eqn:? end;
    cbn; try reflexivity;
    repeat match goal with H : String.eqb _ EmptyString = true |- _ =>
      apply String.eqb_eq in H; subst end; reflexivity.
Qed.

(** Witness: a posting with a department and no location. *)
Lemma make_job_defaults_witness :
  (JStr "Eng" = JNull \/ exists sd, JStr "Eng" = JStr sd) /\ (JNull = JNull \/ exists sl, JNull = JStr sl)
  /\ make_job (JStr " Engineer ") (JStr "Eng") JNull (JStr "https://acme.com/jobs/1") "Acme" ""
     = ret {| title := "Engineer"; department := "Eng"; location := "Not specified";
              job_url := JStr "https://acme.com/jobs/1"; company := "Acme"; company_website := "" |}.
Proof.
  split; [right; exists "Eng"; reflexivity|split; [left; reflexivity|]].
  exact (make_job_defaults " Engineer " (JStr "Eng") JNull (JStr "https://acme.com/jobs/1") "Acme" ""
           (or_intror (ex_intro _ "Eng" eq_refl)) (or_introl eq_refl)).
Defined.

(** C3 as stated fails: a Greenhouse posting with no title and no
    location is normalised to an empty title and location "Not specified". *)
Lemma greenhouse_missing_fields_counterexample :
  greenhouse_job "Acme" "https://boards.greenhouse.io/acme"
    (JObj [("departments", JArr [JObj [("name", JStr "Eng")]])])
  = ([], inr {| title := ""; department := "Eng"; location := "Not specified";
                job_url := JStr "https://boards.greenhouse.io/acme"; company := "Acme";
                company_website := "" |})
  /\ ~ (forall j, snd (greenhouse_job "Acme" "https://boards.greenhouse.io/acme"
                          (JObj [("departments", JArr [JObj [("name", JStr "Eng")]])])) = inr j ->
                  title j <> "" /\ location j = "").
Proof.
  split; [vm_compute; reflexivity|].
  intro H. specialize (H _ eq_refl). destruct H as [H _]. apply H. reflexivity.
Qed.

(** ** The orchestrator *)

Lemma snd_bind {A B} (m : M A) (f : A -> M B) :
  snd (bind m f) = match snd m with inl e => inl e | inr a => snd (f a) end.
Proof. unfold bind. destruct m as [l [e|a]]; [reflexivity|]. simpl. now destruct (f a). Qed.

Lemma snd_catch {A} (m : M A) (h : exn -> M A) :
  snd (catch m h) = match snd m with inl e => snd (h e) | inr a => inr a end.
Proof. unfold catch. destruct m as [l [e|a]]; [|reflexivity]. simpl. now destruct (h e). Qed.

Lemma override_step_no_reason (L : Lib) (N : Net) (ct : company_target) l out :
  override_step L N ct = (l, inr (Some out)) -> snd out = None.
Proof.
  unfold override_step. destruct (known_ats_get (name ct)) as [[[k s] u]|].
  - intro H. apply bind_inr in H as (l1 & jobs & l2 & _ & H & _).
    apply ret_inr in H as [_ H]. destruct (nonempty jobs); [|discriminate].
    inversion H. reflexivity.
  - intro H. apply ret_inr in H as [_ H]. discriminate.
Qed.

Lemma auto_detect_exclusive (L : Lib) (N : Net) (ct : company_target) l jobs r :
  auto_detect L N ct = (l, inr (jobs, Some r)) -> jobs = [].
Proof.
  unfold auto_detect. destruct (String.eqb (website_of ct) EmptyString).
  { intro H. apply ret_inr in H as [_ H]. now inversion H. }
  intro H. apply bind_inr in H as (l1 & [[[ju ats] slug] h] & l2 & _ & H & _).
  destruct ju as [ju|].
  2:{ apply ret_inr in H as [_ H]. now inversion H. }
  destruct (String.eqb ju EmptyString).
  { apply ret_inr in H as [_ H]. now inversion H. }
  destruct ats as [k|];
    apply bind_inr in H as (l3 & js & l4 & _ & H & _);
    apply ret_inr in H as [_ H]; discriminate.
Qed.

(** C4: a ScrapeOutcome never pairs jobs with a failure reason: whenever
    [scrape_company] returns a reason, its job list is empty. *)
Theorem scrape_company_exclusive (L : Lib) (N : Net) (ct : company_target)
    (l : list call) (jobs : list job) (r : string) :
  scrape_company L N ct = (l, inr (jobs, Some r)) -> jobs = [].
Proof.
  unfold scrape_company. intro H.
  apply bind_inr in H as (l1 & o & l2 & Ho & H & _).
  destruct o as [out|].
  - apply ret_inr in H as [_ ->]. apply override_step_no_reason in Ho. discriminate.
  - eapply auto_detect_exclusive. exact H.
Qed.

Lemma scrape_company_exclusive_witness :
  scrape_company lib0 net_down acme_no_site = ([], inr ([], Some "no website")) /\ @nil job = [].
Proof.
  split; [vm_compute; reflexivity|].
  exact (scrape_company_exclusive lib0 net_down acme_no_site [] [] "no website"
           ltac:(vm_compute; reflexivity)).
Defined.

(** C5 (amended): a target with no website whose lowercased name is not an
    override key gets [([], "no website")] with no network call at all.
    When the name is an override key, the override's adapter runs first,
    with its network calls, and [([], "no website")] comes only when that
    adapter returns zero jobs. *)
Theorem scrape_company_no_website (L : Lib) (N : Net) (ct : company_target) :
  website ct = None ->
  (known_ats_get (name ct) = None ->
   scrape_company L N ct = ([], inr ([], Some "no website")))
  /\ (forall k s u l,
      known_ats_get (name ct) = Some (k, s, u) ->
      route_to_scraper L N (Some k) s (name ct) u = (l, inr []) ->
      scrape_company L N ct = (l, inr ([], Some "no website")))
  /\ (forall k s u,
      known_ats_get (name ct) = Some (k, s, u) ->
      snd (scrape_company L N ct) = inr ([], Some "no website") ->
      snd (route_to_scraper L N (Some k) s (name ct) u) = inr []).
Proof.
  intro Hw. unfold scrape_company, override_step, auto_detect, website_of.
  rewrite Hw. split; [|split].
  - intro Hk. rewrite Hk. reflexivity.
  - intros k s u l Hk Hr. rewrite Hk. unfold bind at 2. rewrite Hr. simpl.
    rewrite !app_nil_r. reflexivity.
  - intros k s u Hk H. rewrite Hk in H. rewrite snd_bind, snd_bind in H.
    destruct (snd (route_to_scraper L N (Some k) s (name ct) u)) as [e|[|j js]];
      cbn in H; try discriminate; reflexivity.
Qed.

Lemma scrape_company_no_website_witness :
  scrape_company lib0 net_faire acme_no_site = ([], inr ([], Some "no website"))
  /\ snd (scrape_company lib0 net_down faire_no_site) = inr ([], Some "no website")
  /\ snd (route_to_scraper lib0 net_down (Some Greenhouse) (Some "Faire") "Faire"
                            "https://boards.greenhouse.io/faire") = inr [].
Proof.
  split.
  - apply (proj1 (scrape_company_no_website lib0 net_faire acme_no_site eq_refl)).
    vm_compute. reflexivity.
  - split; [vm_compute; reflexivity|].
    apply (proj2 (proj2 (scrape_company_no_website lib0 net_down faire_no_site eq_refl))).
    + vm_compute. reflexivity.
    + vm_compute. reflexivity.
Defined.

(** C5 as stated fails: "Faire" without a website is an override key; its
    Greenhouse board is called and its jobs are returned with no reason. *)
Lemma scrape_company_no_website_counterexample :
  fst (scrape_company lib0 net_faire faire_no_site) = [CGet (greenhouse_api "Faire")]
  /\ snd (scrape_company lib0 net_faire faire_no_site) <> inr ([], Some "no website").
Proof. vm_compute. split; [reflexivity|discriminate]. Qed.

(** C6: for a target whose lowercased name is an override key, an override
    adapter that returns jobs ends the scrape with exactly the adapter's
    network calls (the locator never runs, so the homepage is not
    fetched); an override adapter that returns zero jobs is followed by
    auto-detection, whose calls and outcome follow it unchanged. *)
Theorem scrape_company_override (L : Lib) (N : Net) (ct : company_target)
    (k : ats_kind) (s : option string) (u : string) :
  known_ats_get (name ct) = Some (k, s, u) ->
  (forall l jobs,
     route_to_scraper L N (Some k) s (name ct) u = (l, inr jobs) -> jobs <> [] ->
     scrape_company L N ct = (l, inr (stamp (website_of ct) jobs, None)))
  /\ (forall l,
      route_to_scraper L N (Some k) s (name ct) u = (l, inr []) ->
      scrape_company L N ct = (app l (fst (auto_detect L N ct)), snd (auto_detect L N ct))).
Proof.
  intro Hk. unfold scrape_company, override_step. rewrite Hk. split.
  - intros l jobs Hr Hne. unfold bind at 2. rewrite Hr. simpl.
    destruct jobs as [|j js]; [contradiction|]. simpl. rewrite !app_nil_r. reflexivity.
  - intros l Hr. unfold bind at 2. rewrite Hr. simpl.
    destruct (auto_detect L N ct) as [l2 r2]. simpl. rewrite !app_nil_r. reflexivity.
Qed.

Lemma scrape_company_override_witness :
  known_ats_get "Faire" = Some (Greenhouse, Some "Faire", "https://boards.greenhouse.io/faire")
  /\ scrape_company lib0 net_faire faire
     = ([CGet (greenhouse_api "Faire")],
        inr ([{| title := "Engineer"; department := "Eng"; location := "Remote";
                 job_url := JStr "https://boards.greenhouse.io/faire/jobs/1";
                 company := "Faire"; company_website := "https://faire.com" |}], None)).
Proof.
  split; [vm_compute; reflexivity|].
  refine (eq_trans
            (proj1 (scrape_company_override lib0 net_faire faire Greenhouse (Some "Faire")
                      "https://boards.greenhouse.io/faire" ltac:(vm_compute; reflexivity))
                   [CGet (greenhouse_api "Faire")]
                   [{| title := "Engineer"; department := "Eng"; location := "Remote";
                       job_url := JStr "https://boards.greenhouse.io/faire/jobs/1";
                       company := "Faire"; company_website := "" |}]
                   ltac:(vm_compute; reflexivity) ltac:(discriminate)) _).
  vm_compute. reflexivity.
Defined.

Lemma fetch_html_down (N : Net) (url : string) :
  http_get N url = None -> snd (fetch_html N url false) = inr None.
Proof.
  intro H. unfold fetch_html. rewrite snd_bind. simpl.
  rewrite snd_catch. unfold requests_get. rewrite H. reflexivity.
Qed.

Lemma try_paths_down (L : Lib) (N : Net) (base : string) (paths : list string) :
  (forall p, In p paths -> http_get N (base ++ p) = None) ->
  snd (try_paths L N base paths) = inr (None, None, None, None).
Proof.
  induction paths as [|p ps IH]; intro H; [reflexivity|].
  simpl. rewrite snd_bind.
  assert (Hp : snd (try_path L N base p) = inr None).
  { unfold try_path. rewrite snd_catch. unfold requests_get.
    rewrite (H p (or_introl eq_refl)). reflexivity. }
  rewrite Hp. apply IH. intros p' Hp'. apply H. right. exact Hp'.
Qed.

Lemma find_jobs_page_down (L : Lib) (N : Net) (base : string) :
  (forall p, In p ("" :: JOBS_PATHS) -> http_get N (rstrip_slash base ++ p) = None) ->
  snd (find_jobs_page L N base) = inr (None, None, None, None).
Proof.
  intro H.
  assert (H0 : http_get N (rstrip_slash base) = None).
  { rewrite <- (append_empty_r (rstrip_slash base)). apply H. left. reflexivity. }
  unfold find_jobs_page. rewrite snd_bind.
  rewrite (fetch_html_down N _ H0).
  rewrite snd_bind.
  exact (try_paths_down L N _ JOBS_PATHS (fun p Hp => H p (or_intror Hp))).
Qed.

(** C1 (amended): [scrape_company] may raise (see the counterexample);
    but when the website host is unreachable (the homepage and every
    conventional-path URL under it fail) and the name has no override or
    its override adapter returns zero jobs without raising, it returns
    [([], "no jobs page found")] instead of raising. *)
Theorem scrape_company_unreachable_site (L : Lib) (N : Net) (ct : company_target) (w : string) :
  website ct = Some w ->
  rstrip_slash w <> EmptyString ->
  (forall p, In p ("" :: JOBS_PATHS) -> http_get N (rstrip_slash w ++ p) = None) ->
  match known_ats_get (name ct) with
  | None => True
  | Some (k, s, u) => snd (route_to_scraper L N (Some k) s (name ct) u) = inr []
  end ->
  snd (scrape_company L N ct) = inr ([], Some "no jobs page found").
Proof.
  intros Hw Hne Hdown Hov.
  unfold scrape_company. rewrite snd_bind.
  assert (Ho : snd (override_step L N ct) = inr None).
  { unfold override_step. destruct (known_ats_get (name ct)) as [[[k s] u]|]; [|reflexivity].
    rewrite snd_bind, Hov. reflexivity. }
  rewrite Ho. unfold auto_detect, website_of. rewrite Hw.
  apply String.eqb_neq in Hne. rewrite Hne.
  rewrite snd_bind. rewrite find_jobs_page_down; [reflexivity|].
  unfold rstrip_slash. rewrite rstrip_by_idem. exact Hdown.
Qed.

Lemma scrape_company_unreachable_site_witness :
  snd (scrape_company lib0 net_down acme) = inr ([], Some "no jobs page found").
Proof.
  apply (scrape_company_unreachable_site lib0 net_down acme "https://acme.com").
  - reflexivity.
  - vm_compute. discriminate.
  - intros p _. reflexivity.
  - vm_compute. exact I.
Defined.

(** C1 as stated fails: a homepage whose careers link has a malformed host
    ([//[careers]) makes [urljoin] raise ValueError inside the locator's
    homepage stage, outside any [try], and [scrape_company] raises. *)
Lemma scrape_company_raises_counterexample :
  scrape_company lib_bad_home net_bad_home acme = ([CGet "https://acme.com"], inl ValueError).
Proof. vm_compute. reflexivity. Qed.

(** ** C7: the generic adapter's strategy priority *)

(** C7 (amended): when the page fetched by [scrape_generic] does not carry
    the embedded-widget marker ["ashby_jid="] and its schema.org
    JobPosting markup yields at least one record, the result is exactly
    those records, after the fetch alone: the class-keyword and link-scan
    strategies are not consulted, whatever containers the page has. A
    page carrying the marker is instead handed to [scrape_ashby_embedded]
    on the same URL: the result is that scraper's, after the fetch, and
    none of the three strategies runs. *)
Theorem scrape_generic_schema_first (L : Lib) (N : Net) (u c : string)
    (l : list call) (html : string) :
  u <> EmptyString ->
  fetch_html N u true = (l, inr (Some html)) ->
  (html <> EmptyString ->
   py_contains "ashby_jid=" html = false ->
   schema_jobs L u c (parse L html) <> [] ->
   scrape_generic L N u c = (l, inr (schema_jobs L u c (parse L html))))
  /\ (py_contains "ashby_jid=" html = true ->
      scrape_generic L N u c
      = (app l (fst (scrape_ashby_embedded L N u c)), snd (scrape_ashby_embedded L N u c))).
Proof.
  intros Hu Hf. apply String.eqb_neq in Hu. split.
  - intros Hh Hm Hs. unfold scrape_generic.
    apply String.eqb_neq in Hh. rewrite Hu.
    unfold bind at 1. rewrite Hf. rewrite Hh, Hm. cbv zeta.
    destruct (schema_jobs L u c (parse L html)) as [|j js] eqn:E; [contradiction|].
    simpl. rewrite app_nil_r. reflexivity.
  - intro Hm. unfold scrape_generic. rewrite Hu. unfold bind at 1. rewrite Hf.
    assert (Hh : String.eqb html EmptyString = false).
    { apply String.eqb_neq. intros ->. discriminate Hm. }
    rewrite Hh, Hm. destruct (scrape_ashby_embedded L N u c). reflexivity.
Qed.

(** Witness: the schema.org page without the marker, and the same markup
    with the marker. *)
Lemma scrape_generic_schema_first_witness :
  scrape_generic lib_schema net_schema "https://acme.com/careers" "Acme"
  = ([CGet "https://acme.com/careers"],
     inr (schema_jobs lib_schema "https://acme.com/careers" "Acme" mixed_soup))
  /\ scrape_generic lib_mixed net_mixed "https://acme.com/careers" "Acme"
     = (app [CGet "https://acme.com/careers"]
            (fst (scrape_ashby_embedded lib_mixed net_mixed "https://acme.com/careers" "Acme")),
        snd (scrape_ashby_embedded lib_mixed net_mixed "https://acme.com/careers" "Acme")).
Proof.
  split.
  - apply (proj1 (scrape_generic_schema_first lib_schema net_schema "https://acme.com/careers" "Acme"
                    [CGet "https://acme.com/careers"] schema_page
                    ltac:(discriminate) ltac:(vm_compute; reflexivity))).
    + vm_compute. discriminate.
    + vm_compute. reflexivity.
    + vm_compute. discriminate.
  - apply (proj2 (scrape_generic_schema_first lib_mixed net_mixed "https://acme.com/careers" "Acme"
                    [CGet "https://acme.com/careers"] mixed_page
                    ltac:(discriminate) ltac:(vm_compute; reflexivity))).
    vm_compute. reflexivity.
Defined.

(** C7 as stated fails: a page with schema.org markup and a job container
    that also carries ["ashby_jid="] is handed to the embedded Ashby
    parser; the schema.org record is not returned. *)
Lemma scrape_generic_schema_first_counterexample :
  schema_jobs lib_mixed "https://acme.com/careers" "Acme" (parse lib_mixed mixed_page) <> []
  /\ filter class_matches (class_elements (parse lib_mixed mixed_page)) <> []
  /\ snd (scrape_generic lib_mixed net_mixed "https://acme.com/careers" "Acme") = inr []
  /\ snd (scrape_generic lib_mixed net_mixed "https://acme.com/careers" "Acme")
     <> inr (schema_jobs lib_mixed "https://acme.com/careers" "Acme" (parse lib_mixed mixed_page)).
Proof.
  split; [vm_compute; discriminate|].
  split; [vm_compute; discriminate|].
  split; [vm_compute; reflexivity|].
  vm_compute. discriminate.
Qed.

(** ** C8: the Ashby slug variants *)

Lemma fst_bind {A B} (m : M A) (f : A -> M B) :
  fst (bind m f) = app (fst m) (match snd m with inl _ => [] | inr a => fst (f a) end).
Proof.
  unfold bind. destruct m as [l [e|a]]; simpl; [now rewrite app_nil_r|].
  now destruct (f a).
Qed.

Lemma fst_bind_pure {A B} (m : M A) (f : A -> M B) :
  fst m = [] -> (forall a, fst (f a) = []) -> fst (bind m f) = [].
Proof.
  intros Hm Hf. rewrite fst_bind, Hm. simpl.
  destruct (snd m); [reflexivity|apply Hf].
Qed.

Lemma py_get_pure (d : json) (k : string) (x : json) : fst (py_get d k x) = [].
Proof. destruct d; reflexivity. Qed.

Lemma get_or_pure (j : json) (keys : list string) (x : json) : fst (get_or j keys x) = [].
Proof.
  induction keys as [|k ks IH]; [reflexivity|]. simpl.
  apply fst_bind_pure; [apply py_get_pure|]. intro v. destruct (truthy v); [reflexivity|exact IH].
Qed.

Lemma make_job_pure (t d l u : json) (c w : string) : fst (make_job t d l u c w) = [].
Proof.
  unfold make_job, or_strip.
  apply fst_bind_pure; [destruct t; reflexivity|intro].
  apply fst_bind_pure; [destruct (py_or d (JStr "General")); reflexivity|intro].
  apply fst_bind_pure; [destruct (py_or l (JStr "Not specified")); reflexivity|intro].
  reflexivity.
Qed.

Lemma mapM_pure {A B} (f : A -> M B) (xs : list A) :
  (forall a, fst (f a) = []) -> fst (mapM f xs) = [].
Proof.
  intro Hf. induction xs as [|a xs IH]; [reflexivity|]. simpl.
  apply fst_bind_pure; [apply Hf|intro].
  apply fst_bind_pure; [exact IH|reflexivity].
Qed.

Lemma ashby_job_pure (c fb : string) (j : json) : fst (ashby_job c fb j) = [].
Proof.
  unfold ashby_job.
  apply fst_bind_pure; [apply get_or_pure|intro loc].
  apply fst_bind_pure.
  { destruct (truthy loc); [reflexivity|]. apply fst_bind_pure; [apply py_get_pure|reflexivity]. }
  intro loc'. apply fst_bind_pure; [apply get_or_pure|intro].
  apply fst_bind_pure; [apply get_or_pure|intro].
  apply fst_bind_pure; [apply py_get_pure|intro].
  apply make_job_pure.
Qed.

(** Each variant costs exactly one request and never raises. *)
Lemma ashby_try_one_call (N : Net) (c fb v : string) :
  fst (ashby_try N c fb v) = [CGet (ashby_api v)]
  /\ exists o, snd (ashby_try N c fb v) = inr o.
Proof.
  unfold ashby_try.
  set (body := bind (requests_get N (ashby_api v)) _).
  assert (Hl : fst body = [CGet (ashby_api v)]).
  { unfold body. rewrite fst_bind. unfold requests_get. cbn [fst snd].
    destruct (http_get N (ashby_api v)) as [r|]; cbv beta iota; [|reflexivity].
    match goal with |- app _ ?x = _ => replace x with (@nil call); [reflexivity|symmetry] end.
    apply fst_bind_pure; [unfold r_json; destruct (json_body r); reflexivity|intro].
    apply fst_bind_pure; [apply get_or_pure|intro].
    apply fst_bind_pure; [unfold py_iter; destruct a0; reflexivity|intro].
    apply fst_bind_pure; [apply mapM_pure, ashby_job_pure|reflexivity]. }
  unfold catch. destruct body as [l [e|o]]; simpl in *; subst.
  - split; [reflexivity|]. exists None. reflexivity.
  - split; [reflexivity|]. exists o. reflexivity.
Qed.

(** A variant counts as a success only with a non-empty job list. *)
Lemma ashby_try_some_nonempty (N : Net) (c fb v : string) (js : list job) :
  snd (ashby_try N c fb v) = inr (Some js) -> js <> [].
Proof.
  unfold ashby_try. rewrite snd_catch. intro H.
  destruct (snd (bind (requests_get N (ashby_api v)) _)) as [e|o] eqn:E.
  - discriminate.
  - inversion H; subst o. clear H.
    repeat (rewrite snd_bind in E;
            match type of E with
            | context [match snd ?m with _ => _ end] => destruct (snd m)
            end; cbv beta iota in E; [discriminate|]).
    unfold ret in E. cbn [snd] in E.
    match type of E with
    | inr (if nonempty ?j then _ else _) = _ => destruct j
    end; cbn in E; inversion E; discriminate.
Qed.

Ltac ashby_variant N c fb v :=
  let Hl := fresh "Hl" in
  destruct (ashby_try_one_call N c fb v) as [Hl _];
  destruct (ashby_try N c fb v) as [? ?];
  cbn [fst snd] in *; subst.

(** C8: [scrape_ashby] queries the job-board endpoint for the variants
    as-given, lowercase and capitalized, in that order, one request each;
    no variant raises; the first variant with a non-empty job list gives
    the result; when all three yield zero jobs or fail, the result is that
    of [scrape_ashby_embedded] on the fallback URL, after the three
    requests. *)
Theorem scrape_ashby_variants (L : Lib) (N : Net) (slug c fb : string) :
  let T := ashby_try N c fb in
  let v1 := slug in
  let v2 := py_lower slug in
  let v3 := py_capitalize slug in
  (forall v, fst (T v) = [CGet (ashby_api v)] /\ exists o, snd (T v) = inr o)
  /\ (forall v js, snd (T v) = inr (Some js) -> js <> [])
  /\ (forall js, snd (T v1) = inr (Some js) ->
        scrape_ashby L N slug c fb = ([CGet (ashby_api v1)], inr js))
  /\ (forall js, snd (T v1) = inr None -> snd (T v2) = inr (Some js) ->
        scrape_ashby L N slug c fb = ([CGet (ashby_api v1); CGet (ashby_api v2)], inr js))
  /\ (forall js, snd (T v1) = inr None -> snd (T v2) = inr None ->
        snd (T v3) = inr (Some js) ->
        scrape_ashby L N slug c fb
        = ([CGet (ashby_api v1); CGet (ashby_api v2); CGet (ashby_api v3)], inr js))
  /\ (snd (T v1) = inr None -> snd (T v2) = inr None -> snd (T v3) = inr None ->
        scrape_ashby L N slug c fb
        = (app [CGet (ashby_api v1); CGet (ashby_api v2); CGet (ashby_api v3)]
               (fst (scrape_ashby_embedded L N fb c)),
           snd (scrape_ashby_embedded L N fb c))).
Proof.
  intros T v1 v2 v3. unfold T, v1, v2, v3. clear T v1 v2 v3.
  split; [intro v; apply ashby_try_one_call|].
  split; [intros v js; apply ashby_try_some_nonempty|].
  unfold scrape_ashby. cbn [ashby_loop].
  split; [|split; [|split]].
  - intros js H1. ashby_variant N c fb slug. reflexivity.
  - intros js H1 H2. ashby_variant N c fb slug.
    unfold bind at 1. cbv beta iota.
    ashby_variant N c fb (py_lower slug). reflexivity.
  - intros js H1 H2 H3. ashby_variant N c fb slug.
    unfold bind at 1. cbv beta iota.
    ashby_variant N c fb (py_lower slug).
    unfold bind at 1. cbv beta iota.
    ashby_variant N c fb (py_capitalize slug). reflexivity.
  - intros H1 H2 H3. ashby_variant N c fb slug.
    unfold bind at 1. cbv beta iota.
    ashby_variant N c fb (py_lower slug).
    unfold bind at 1. cbv beta iota.
    ashby_variant N c fb (py_capitalize slug).
    unfold bind. cbv beta iota.
    destruct (scrape_ashby_embedded L N fb c). reflexivity.
Qed.

Lemma scrape_ashby_variants_witness :
  scrape_ashby lib0 net_ashby "ResQ" "ResQ" resq_fallback
  = ([CGet (ashby_api "ResQ"); CGet (ashby_api "resq")],
     inr (match snd (ashby_try net_ashby "ResQ" resq_fallback "resq") with
          | inr (Some js) => js
          | _ => []
          end)).
Proof.
  destruct (scrape_ashby_variants lib0 net_ashby "ResQ" "ResQ" resq_fallback)
    as (_ & _ & _ & H2 & _).
  apply H2; vm_compute; reflexivity.
Defined.

(** ** C9: the Lever fallback *)

(** C9 (amended): when the Lever postings request answers with a JSON body
    that is not an array, [scrape_lever] raises no error of its own: after
    the one API request its outcome is exactly that of [scrape_generic] on
    the fallback URL, errors of [scrape_generic] included. *)
Theorem scrape_lever_non_array (L : Lib) (N : Net) (slug c fb : string)
    (r : response) (d : json) :
  http_get N (lever_api slug) = Some r ->
  json_body r = Some d ->
  (forall items, d <> JArr items) ->
  scrape_lever L N slug c fb
  = (CGet (lever_api slug) :: fst (scrape_generic L N fb c),
     snd (scrape_generic L N fb c)).
Proof.
  intros Hg Hb Hd. unfold scrape_lever, catch, bind, requests_get.
  rewrite Hg. cbv beta iota. unfold r_json. rewrite Hb.
  unfold ret. cbv beta iota.
  destruct d; try (exfalso; eapply Hd; reflexivity);
    unfold raise; cbv beta iota;
    destruct (scrape_generic L N fb c); reflexivity.
Qed.

Lemma scrape_lever_non_array_witness :
  scrape_lever lib_schema net_lever_ok_page "acme" "Acme" lever_fallback
  = (CGet (lever_api "acme") :: fst (scrape_generic lib_schema net_lever_ok_page lever_fallback "Acme"),
     snd (scrape_generic lib_schema net_lever_ok_page lever_fallback "Acme")).
Proof.
  apply (scrape_lever_non_array lib_schema net_lever_ok_page "acme" "Acme" lever_fallback
           (ok200 (lever_api "acme") "{}" (Some lever_error)) lever_error).
  - vm_compute. reflexivity.
  - reflexivity.
  - intros items H. discriminate H.
Defined.

(** C9 as stated fails: Lever answers with an error object, and the
    fallback page has a job container whose link has a malformed host;
    [urljoin] raises [ValueError] in [scrape_generic], outside any handler,
    and the error leaves [scrape_lever]. *)
Lemma scrape_lever_raises_counterexample :
  json_body (ok200 (lever_api "acme") "{}" (Some lever_error)) = Some lever_error
  /\ snd (scrape_lever lib_bad_job net_lever_error "acme" "Acme" lever_fallback) = inl ValueError.
Proof. split; [reflexivity|vm_compute; reflexivity]. Qed.



Ltac peel H :=
  repeat first
   [ discriminate H
   | progress (rewrite snd_bind in H)
   | match type of H with
     | context [match snd ?m with inl _ => _ | inr _ => _ end] =>
         let E := fresh "E" in destruct (snd m) eqn:E; cbv beta iota zeta in H
     | snd (if ?b then _ else _) = _ => let Eb := fresh "Eb" in destruct b eqn:Eb; cbv beta iota zeta in H
     | snd (match ?x with _ => _ end) = _ => destruct x; cbv beta iota zeta in H
     end ].

Lemma make_job_company (t d l u : json) (c w : string) (j : job) :
  snd (make_job t d l u c w) = inr j -> company j = c /\ company_website j = w.
Proof.
  unfold make_job, or_strip. intro H. peel H. unfold ret in H. cbn in H. inversion H. auto.
Qed.

Lemma greenhouse_job_company c fb j x : snd (greenhouse_job c fb j) = inr x -> company x = c.
Proof. unfold greenhouse_job. intro H. peel H. apply make_job_company in H. tauto. Qed.

Lemma lever_job_company c fb j x : snd (lever_job c fb j) = inr x -> company x = c.
Proof. unfold lever_job. intro H. peel H. apply make_job_company in H. tauto. Qed.

Lemma ashby_job_company c fb j x : snd (ashby_job c fb j) = inr x -> company x = c.
Proof. unfold ashby_job. intro H. peel H. all: try (apply make_job_company in H; tauto). Qed.

Lemma workable_job_company L s c j x : snd (workable_job L s c j) = inr x -> company x = c.
Proof. unfold workable_job. intro H. peel H. all: try (apply make_job_company in H; tauto). Qed.

Lemma rippling_job_company L s c fb j x : snd (rippling_job L s c fb j) = inr x -> company x = c.
Proof. unfold rippling_job. intro H. peel H. all: try (apply make_job_company in H; tauto). Qed.

Lemma yc_job_company L s c j x : snd (yc_job L s c j) = inr x -> company x = c.
Proof. unfold yc_job. intro H. peel H. all: try (apply make_job_company in H; tauto). Qed.

Lemma mapM_company {A} (f : A -> M job) (c : string) (xs : list A) (js : list job) :
  (forall a x, snd (f a) = inr x -> company x = c) ->
  snd (mapM f xs) = inr js -> all_company c js.
Proof.
  intros Hf. revert js. induction xs as [|a xs IH]; intros js H.
  - cbn in H. inversion H. constructor.
  - cbn [mapM] in H. peel H. unfold ret in H. cbn in H. inversion H; subst.
    constructor; [eapply Hf; eassumption|apply IH; reflexivity].
Qed.

Lemma foldM_snd_inv {S A} (I : S -> Prop) (f : S -> A -> M S) :
  (forall s a s', I s -> snd (f s a) = inr s' -> I s') ->
  forall xs s s', I s -> snd (foldM f s xs) = inr s' -> I s'.
Proof.
  intros Hf xs. induction xs as [|a xs IH]; intros s s' Hs H.
  - cbn in H. inversion H. subst. assumption.
  - cbn [foldM] in H. rewrite snd_bind in H.
    destruct (snd (f s a)) as [e|s1] eqn:E; [discriminate|].
    exact (IH s1 s' (Hf s a s1 Hs E) H).
Qed.

Lemma inr_inj {A B} (x y : B) : @inr A B x = inr y -> x = y.
Proof. intro H. inversion H. reflexivity. Qed.

Lemma all_company_app1 c js j : all_company c js -> company j = c -> all_company c (app js [j]).
Proof. intros H1 H2. apply Forall_app. split; [exact H1|constructor; [exact H2|constructor]]. Qed.

Ltac finish_step :=
  match goal with
  | H : snd (ret _) = inr _ |- _ => unfold ret in H; cbn in H; inversion H; subst; clear H
  end;
  cbn [fst] in *;
  first [ assumption
        | apply all_company_app1; [assumption|];
          match goal with
          | E : snd (make_job _ _ _ _ _ _) = inr _ |- _ => exact (proj1 (make_job_company _ _ _ _ _ _ _ E))
          end ].

Lemma embedded_step1_company L u c s a s' :
  all_company c (fst s) -> snd (embedded_step1 L u c s a) = inr s' -> all_company c (fst s').
Proof. destruct s as [jobs seen]. unfold embedded_step1. intros I H. peel H. all: finish_step. Qed.

Lemma embedded_step2_company L u c sl s a s' :
  all_company c (fst s) -> snd (embedded_step2 L u c sl s a) = inr s' -> all_company c (fst s').
Proof. destruct s as [jobs seen]. unfold embedded_step2. intros I H. peel H. all: finish_step. Qed.

Lemma class_step_company L u c s a s' :
  all_company c (fst s) -> snd (class_step L u c s a) = inr s' -> all_company c (fst s').
Proof. destruct s as [jobs seen]. unfold class_step. intros I H. peel H. all: finish_step. Qed.

Lemma link_step_company L u c s a s' :
  all_company c (fst s) -> snd (link_step L u c s a) = inr s' -> all_company c (fst s').
Proof. destruct s as [jobs seen]. unfold link_step. intros I H. peel H. all: finish_step. Qed.

Lemma yc_html_step_company L sl c s a s' :
  all_company c (fst s) -> snd (yc_html_step L sl c s a) = inr s' -> all_company c (fst s').
Proof. destruct s as [jobs seen]. unfold yc_html_step. intros I H. peel H. all: finish_step. Qed.

Lemma schema_item_company u c item j :
  snd (schema_item u c item) = inr (Some j) -> company j = c.
Proof.
  unfold schema_item. intro H. peel H.
  all: try (unfold ret in H; cbn in H; inversion H; subst;
            exact (proj1 (make_job_company _ _ _ _ _ _ _ ltac:(eassumption)))).
Qed.

Lemma schema_items_company u c jobs items :
  all_company c jobs -> all_company c (schema_items u c jobs items).
Proof.
  revert jobs. induction items as [|it items IH]; intros jobs Hj; cbn [schema_items]; [exact Hj|].
  destruct (snd (schema_item u c it)) as [e|[j|]] eqn:E.
  - exact Hj.
  - apply IH, all_company_app1; [exact Hj|eapply schema_item_company; exact E].
  - apply IH, Hj.
Qed.

Lemma schema_jobs_company L u c sp : all_company c (schema_jobs L u c sp).
Proof.
  unfold schema_jobs.
  assert (G : forall scripts jobs, all_company c jobs ->
            all_company c (fold_left (schema_script L u c) scripts jobs)).
  { induction scripts as [|s ss IH]; intros jobs Hj; [exact Hj|]. cbn [fold_left].
    apply IH. unfold schema_script. destruct (json_loads L _); [|exact Hj].
    apply schema_items_company, Hj. }
  apply G. constructor.
Qed.

Ltac use_folds c :=
  repeat match goal with
  | E : snd (foldM (embedded_step1 ?L ?u c) ?s0 ?xs) = inr ?s1 |- _ =>
      pose proof (foldM_snd_inv (fun s => all_company c (fst s)) _ (embedded_step1_company L u c) xs s0 s1 ltac:(cbn; try constructor; try assumption) E); clear E
  | E : snd (foldM (embedded_step2 ?L ?u c ?sl) ?s0 ?xs) = inr ?s1 |- _ =>
      pose proof (foldM_snd_inv (fun s => all_company c (fst s)) _ (embedded_step2_company L u c sl) xs s0 s1 ltac:(cbn; try constructor; try assumption) E); clear E
  | E : snd (foldM (class_step ?L ?u c) ?s0 ?xs) = inr ?s1 |- _ =>
      pose proof (foldM_snd_inv (fun s => all_company c (fst s)) _ (class_step_company L u c) xs s0 s1 ltac:(cbn; try constructor; try apply schema_jobs_company; try assumption) E); clear E
  | E : snd (foldM (link_step ?L ?u c) ?s0 ?xs) = inr ?s1 |- _ =>
      pose proof (foldM_snd_inv (fun s => all_company c (fst s)) _ (link_step_company L u c) xs s0 s1 ltac:(cbn; try constructor; try assumption) E); clear E
  | E : snd (foldM (yc_html_step ?L ?sl c) ?s0 ?xs) = inr ?s1 |- _ =>
      pose proof (foldM_snd_inv (fun s => all_company c (fst s)) _ (yc_html_step_company L sl c) xs s0 s1 ltac:(cbn; try constructor; try assumption) E); clear E
  end.

Lemma scrape_ashby_embedded_company L N u c js :
  snd (scrape_ashby_embedded L N u c) = inr js -> all_company c js.
Proof.
  unfold scrape_ashby_embedded. intro H. peel H. all: use_folds c.
  all: unfold ret in H; cbn in H; inversion H; subst; cbn in *; try constructor; assumption.
Qed.

Lemma firstn_all_company c n js : all_company c js -> all_company c (firstn n js).
Proof.
  unfold all_company. intro H. rewrite <- (firstn_skipn n js) in H.
  apply Forall_app in H. tauto.
Qed.

Lemma scrape_generic_company L N u c js :
  snd (scrape_generic L N u c) = inr js -> all_company c js.
Proof.
  unfold scrape_generic. intro H. peel H.
  all: try (eapply scrape_ashby_embedded_company; exact H).
  all: use_folds c.
  all: unfold ret in H; cbn [snd] in H; apply inr_inj in H; subst; cbn [fst] in *;
       first [exact (Forall_nil _) | apply schema_jobs_company | apply firstn_all_company; assumption | assumption].
Qed.

Ltac close_company c :=
  first
  [ match goal with H : snd (scrape_generic _ _ _ c) = inr _ |- _ => exact (scrape_generic_company _ _ _ _ _ H) end
  | match goal with H : snd (scrape_ashby_embedded _ _ _ c) = inr _ |- _ => exact (scrape_ashby_embedded_company _ _ _ _ _ H) end
  | match goal with H : snd (mapM _ _) = inr _ |- _ =>
      eapply mapM_company; [|exact H]; intros ? ?;
      first [ apply greenhouse_job_company | apply lever_job_company | apply ashby_job_company
            | apply workable_job_company | apply rippling_job_company | apply yc_job_company ] end ].

Lemma scrape_greenhouse_company L N s c fb js :
  snd (scrape_greenhouse L N s c fb) = inr js -> all_company c js.
Proof.
  unfold scrape_greenhouse. intro H. rewrite snd_catch in H.
  destruct (snd (bind (requests_get N _) _)) as [e|a] eqn:E; [close_company c|].
  apply inr_inj in H. subst a. peel E. close_company c.
Qed.

Lemma scrape_lever_company L N s c fb js :
  snd (scrape_lever L N s c fb) = inr js -> all_company c js.
Proof.
  unfold scrape_lever. intro H. rewrite snd_catch in H.
  destruct (snd (bind (requests_get N _) _)) as [e|a] eqn:E; [close_company c|].
  apply inr_inj in H. subst a. peel E. close_company c.
Qed.

Lemma scrape_workable_company L N s c fb js :
  snd (scrape_workable L N s c fb) = inr js -> all_company c js.
Proof.
  unfold scrape_workable. intro H. rewrite snd_catch in H.
  destruct (snd (bind (requests_post N _) _)) as [e|a] eqn:E; [close_company c|].
  apply inr_inj in H. subst a. peel E. close_company c.
Qed.

(** The API stage of the adapters that fall back on an empty result. *)
Lemma opt_stage_company c (body : M (option (list job))) :
  forall js, snd (catch body (fun _ => ret None)) = inr (Some js) ->
  (forall js, snd body = inr (Some js) -> all_company c js) -> all_company c js.
Proof.
  intros js H Hb. rewrite snd_catch in H. revert Hb H.
  destruct (snd body) as [e|o]; intros Hb H; [discriminate|].
  apply inr_inj in H. subst o. apply Hb. reflexivity.
Qed.

Ltac close_opt c :=
  intros ?js0 ?Hb; peel Hb;
  unfold ret in Hb; cbn [snd] in Hb; apply inr_inj in Hb;
  match type of Hb with
  | (if nonempty ?x then _ else _) = _ => destruct (nonempty x); inversion Hb; subst
  end; close_company c.

Lemma scrape_rippling_company L N s c fb js :
  snd (scrape_rippling L N s c fb) = inr js -> all_company c js.
Proof.
  unfold scrape_rippling. intro H. rewrite snd_bind in H.
  destruct (snd (catch _ _)) as [e|[jobs|]] eqn:E; cbv beta iota in H;
    [discriminate| |close_company c].
  unfold ret in H. cbn [snd] in H. apply inr_inj in H. subst jobs.
  apply (opt_stage_company c _ js E). close_opt c.
Qed.

Lemma scrape_yc_company L N s c fb js :
  snd (scrape_yc L N s c fb) = inr js -> all_company c js.
Proof.
  unfold scrape_yc. intro H. rewrite snd_bind in H.
  destruct (snd (catch _ _)) as [e|[jobs|]] eqn:E; cbv beta iota in H; [discriminate| |].
  - unfold ret in H. cbn [snd] in H. apply inr_inj in H. subst jobs.
    apply (opt_stage_company c _ js E). close_opt c.
  - rewrite snd_catch in H.
    destruct (snd (bind (fetch_html N fb false) _)) as [e|a] eqn:E2.
    + unfold ret in H. cbn [snd] in H. apply inr_inj in H. subst. constructor.
    + apply inr_inj in H. subst a. peel E2. all: use_folds c.
      all: unfold ret in E2; cbn [snd] in E2; apply inr_inj in E2; subst; cbn [fst] in *;
           first [exact (Forall_nil _) | assumption].
Qed.

Lemma ashby_try_company N c fb v js :
  snd (ashby_try N c fb v) = inr (Some js) -> all_company c js.
Proof. intro H. apply (opt_stage_company c _ js H). close_opt c. Qed.

Lemma scrape_ashby_company L N s c fb js :
  snd (scrape_ashby L N s c fb) = inr js -> all_company c js.
Proof.
  unfold scrape_ashby. generalize [s; py_lower s; py_capitalize s] as slugs.
  intro slugs. revert js. induction slugs as [|v vs IH]; intros js H; cbn [ashby_loop] in H.
  - close_company c.
  - rewrite snd_bind in H. destruct (snd (ashby_try N c fb v)) as [e|[jobs|]] eqn:E;
      cbv beta iota in H; [discriminate| |apply IH, H].
    unfold ret in H. cbn [snd] in H. apply inr_inj in H. subst. eapply ashby_try_company, E.
Qed.

Lemma route_to_scraper_company L N k sl c u js :
  snd (route_to_scraper L N k sl c u) = inr js -> all_company c js.
Proof.
  unfold route_to_scraper. intro H.
  destruct sl as [s|]; [destruct (String.eqb s EmptyString)|]; destruct k as [[]|];
  first [ close_company c
        | eapply scrape_greenhouse_company; exact H
        | eapply scrape_lever_company; exact H
        | eapply scrape_ashby_company; exact H
        | eapply scrape_workable_company; exact H
        | eapply scrape_yc_company; exact H
        | eapply scrape_rippling_company; exact H ].
Qed.

Lemma stamp_company c w js :
  all_company c js ->
  Forall (fun j => company j = c /\ company_website j = w) (stamp w js).
Proof.
  induction 1 as [|j js Hj _ IH]; cbn; constructor; auto.
Qed.

(** Every job [scrape_company] returns carries the company's name and its website ("" when it has none), whatever adapter or fallback produced it. *)
Theorem scrape_company_jobs_owned (L : Lib) (N : Net) (ct : company_target)
    (jobs : list job) (r : option string) :
  snd (scrape_company L N ct) = inr (jobs, r) ->
  Forall (fun j => company j = name ct /\ company_website j = website_of ct) jobs.
Proof.
  unfold scrape_company. intro H. rewrite snd_bind in H.
  destruct (snd (override_step L N ct)) as [e|[out|]] eqn:E; cbv beta iota in H; [discriminate| |].
  - unfold ret in H. cbn [snd] in H. apply inr_inj in H. subst out.
    unfold override_step in E. destruct (known_ats_get (name ct)) as [[[k sl] u]|]; [|discriminate].
    rewrite snd_bind in E. destruct (snd (route_to_scraper L N _ _ _ _)) as [e|js] eqn:E1; [discriminate|].
    unfold ret in E. cbn [snd] in E. apply inr_inj in E.
    destruct (nonempty js); inversion E; subst.
    apply stamp_company. eapply route_to_scraper_company, E1.
  - unfold auto_detect in H. peel H.
    all: unfold ret in H; cbn [snd] in H; apply inr_inj in H; inversion H; subst.
    all: first [ exact (Forall_nil _)
               | apply stamp_company; first [eapply route_to_scraper_company; eassumption | eapply scrape_generic_company; eassumption] ].
Qed.

Lemma scrape_company_jobs_owned_witness :
  snd (scrape_company lib0 net_faire faire) = inr (jobs_of lib0 net_faire faire, None)
  /\ jobs_of lib0 net_faire faire <> []
  /\ Forall (fun j => company j = name faire /\ company_website j = website_of faire)
            (jobs_of lib0 net_faire faire).
Proof.
  split; [vm_compute; reflexivity|]. split; [vm_compute; discriminate|].
  apply (scrape_company_jobs_owned lib0 net_faire faire (jobs_of lib0 net_faire faire) None).
  vm_compute; reflexivity.
Defined.


Lemma prefix_app_l (a s : string) : String.prefix a (a ++ s) = true.
Proof.
  induction a as [|c a IH]; cbn; [destruct s; reflexivity|].
  destruct (ascii_dec c c) as [_|n]; [exact IH|congruence].
Qed.

Lemma take_while_forall p s : str_forall p (take_while p s) = true.
Proof.
  induction s as [|c s IH]; cbn; [reflexivity|].
  destruct (p c) eqn:Hc; cbn; [rewrite Hc; exact IH|reflexivity].
Qed.

Lemma prefix_take_while p s : String.prefix (take_while p s) s = true.
Proof.
  induction s as [|c s IH]; cbn; [reflexivity|].
  destruct (p c); cbn; [|reflexivity].
  destruct (ascii_dec c c) as [_|n]; [exact IH|congruence].
Qed.

Lemma prefix_app a b s :
  String.prefix a s = true -> String.prefix b (sdrop (String.length a) s) = true ->
  String.prefix (a ++ b) s = true.
Proof.
  revert s. induction a as [|c a IH]; intros s Ha Hb; [exact Hb|].
  destruct s as [|c' s]; [discriminate|]. cbn in *.
  destruct (ascii_dec c c') as [->|n]; [|discriminate]. apply IH; assumption.
Qed.

Lemma prefix_contains a s : String.prefix a s = true -> py_contains a s = true.
Proof. intro H. destruct s; cbn [py_contains]; rewrite H; reflexivity. Qed.

Lemma contains_sdrop n sub s : py_contains sub (sdrop n s) = true -> py_contains sub s = true.
Proof.
  revert s. induction n as [|n IH]; intros s H; [exact H|].
  destruct s as [|c s]; [exact H|]. cbn [sdrop] in H. cbn [py_contains].
  rewrite (IH s H). apply orb_true_r.
Qed.

Lemma search_run_spec lit p s g :
  search_run lit p s = Some g ->
  g <> EmptyString /\ str_forall p g = true
  /\ py_contains (lit ++ g) s = true /\ py_contains g s = true.
Proof.
  revert g. induction s as [|c s IH]; intros g H; cbn [search_run] in H.
  - destruct (String.prefix lit "") eqn:Hp; [|discriminate].
    destruct (take_while p (sdrop (String.length lit) "")) as [|a t] eqn:Ht; [discriminate|].
    destruct lit; cbn in Ht; discriminate.
  - set (here := if String.prefix lit (String c s) then _ else None) in H.
    destruct here as [g0|] eqn:Eh.
    + inversion H; subst g0. unfold here in Eh.
      destruct (String.prefix lit (String c s)) eqn:Hp; [|discriminate].
      destruct (take_while p (sdrop (String.length lit) (String c s))) as [|a t] eqn:Ht;
        [discriminate|]. inversion Eh; subst g.
      rewrite <- Ht. split; [rewrite Ht; discriminate|].
      split; [apply take_while_forall|].
      assert (Hc : py_contains (lit ++ take_while p (sdrop (String.length lit) (String c s)))
                     (String c s) = true)
        by (apply prefix_contains, prefix_app; [exact Hp|apply prefix_take_while]).
      split; [exact Hc|].
      apply (contains_sdrop (String.length lit)), prefix_contains, prefix_take_while.
    + destruct (IH g H) as (H1 & H2 & H3 & H4). repeat split; try assumption;
        cbn [py_contains]; [rewrite H3|rewrite H4]; apply orb_true_r.
Qed.

(** [detect_ats_from_url]: a detected ATS is never YC nor the embedded widget, and comes with a non-empty slug of slug characters that occurs in the URL; otherwise nothing is detected at all. *)
Theorem detect_ats_from_url_slug (u : string) :
  match detect_ats_from_url u with
  | (Some k, Some g) =>
      k <> YC /\ k <> AshbyEmbedded /\ g <> EmptyString
      /\ str_forall is_slug_char g = true /\ py_contains g u = true
  | (None, None) => True
  | _ => False
  end.
Proof.
  unfold detect_ats_from_url. destruct (String.eqb u EmptyString); [exact I|].
  cbv beta iota fix delta [url_checks].
  repeat match goal with
  | |- context [match search_run ?lit ?p ?s with _ => _ end] =>
      let E := fresh "E" in destruct (search_run lit p s) eqn:E
  end; cbv beta iota; try exact I;
  match goal with E : search_run _ _ _ = Some _ |- _ =>
    destruct (search_run_spec _ _ _ _ E) as (? & ? & ? & ?) end;
  repeat split; try assumption; discriminate.
Qed.

(** [detect_ats_from_html]: the embedded widget is reported with the page URL as its slug; any other ATS comes with a non-empty slug of slug characters found in the HTML; no slug is never paired with an ATS, and no ATS with a slug. *)
Theorem detect_ats_from_html_slug (html page_url : string) :
  match detect_ats_from_html html page_url with
  | (Some AshbyEmbedded, s) => s = Some page_url
  | (Some k, Some g) =>
      k <> YC /\ g <> EmptyString /\ str_forall is_slug_char g = true /\ py_contains g html = true
  | (Some _, None) => False
  | (None, s) => s = None
  end.
Proof.
  unfold detect_ats_from_html.
  repeat match goal with
  | |- context [if ?b then _ else _] => destruct b
  | |- context [match search_run ?lit ?p ?s with _ => _ end] =>
      let E := fresh "E" in destruct (search_run lit p s) eqn:E
  end; try reflexivity;
  match goal with E : search_run _ _ _ = Some _ |- _ =>
    destruct (search_run_spec _ _ _ _ E) as (? & ? & ? & ?) end;
  repeat split; try assumption; discriminate.
Qed.

Lemma or_strip_stripped x dflt s : snd (or_strip x dflt) = inr s -> stripped s.
Proof.
  unfold or_strip. destruct (py_or x (JStr dflt)); cbn; try discriminate.
  intro H. inversion H. apply stripped_of_strip, py_strip_idem.
Qed.

(** [make_job]: a record it returns has as title the source title
    stripped, as department and location the source value or its default
    ([x or default]) stripped, and url, company and website unchanged; all
    three text fields are thus stripped. A non-string title, or a truthy
    non-string department or location (when the fields before it are
    strings), raises AttributeError. *)
Theorem make_job_normalises (t d l u : json) (c w : string) :
  (forall j, snd (make_job t d l u c w) = inr j ->
     (exists st sd sl, t = JStr st
        /\ py_or d (JStr "General") = JStr sd /\ py_or l (JStr "Not specified") = JStr sl
        /\ title j = py_strip st /\ department j = py_strip sd /\ location j = py_strip sl)
     /\ stripped (title j) /\ stripped (department j) /\ stripped (location j)
     /\ job_url j = u /\ company j = c /\ company_website j = w)
  /\ ((forall s, t <> JStr s) -> snd (make_job t d l u c w) = inl AttributeError)
  /\ (forall s, t = JStr s -> truthy d = true -> (forall s', d <> JStr s') ->
        snd (make_job t d l u c w) = inl AttributeError)
  /\ (forall s ds, t = JStr s -> d = JStr ds -> truthy l = true ->
        (forall s', l <> JStr s') -> snd (make_job t d l u c w) = inl AttributeError).
Proof.
  split; [|split; [|split]].
  - intros j H. unfold make_job in H. peel H.
    unfold ret in H. cbn [snd] in H. apply inr_inj in H. subst j. cbn.
    split.
    { destruct t as [| | |st| |]; cbn in E; try discriminate. apply inr_inj in E.
      unfold or_strip in E0, E1.
      destruct (py_or d (JStr "General")) as [| | |sd| |]; cbn in E0; try discriminate.
      destruct (py_or l (JStr "Not specified")) as [| | |sl| |]; cbn in E1; try discriminate.
      apply inr_inj in E0. apply inr_inj in E1. subst.
      exists st, sd, sl. repeat split; reflexivity. }
    split; [|split; [|split; [|split; [|split]]]]; try reflexivity.
    + destruct t; cbn in E; try discriminate. inversion E.
      apply stripped_of_strip, py_strip_idem.
    + eapply or_strip_stripped; eassumption.
    + eapply or_strip_stripped; eassumption.
  - intro Ht. destruct t; try reflexivity. exfalso. eapply Ht. reflexivity.
  - intros s -> Hd Hs.
    destruct d; try (exfalso; eapply Hs; reflexivity); cbn in Hd; try discriminate;
      unfold make_job, or_strip, py_or; cbn; rewrite ?Hd; reflexivity.
  - intros s ds -> -> Hl Hs.
    destruct l; try (exfalso; eapply Hs; reflexivity); cbn in Hl; try discriminate;
      unfold make_job, or_strip, py_or; cbn;
      destruct (negb (String.eqb ds EmptyString)); cbn; rewrite ?Hl; reflexivity.
Qed.

Lemma rstrip_slash_app_slash (w : string) : rstrip_slash (w ++ "/") = rstrip_slash w.
Proof.
  unfold rstrip_slash. induction w as [|c w IH]; [reflexivity|].
  cbn [append rstrip_by]. rewrite IH. reflexivity.
Qed.

(** A trailing slash on the website makes no difference to [scrape_company]: same calls, same result. *)
Theorem scrape_company_trailing_slash (L : Lib) (N : Net) (n w : string) :
  scrape_company L N {| name := n; website := Some (w ++ "/") |}
  = scrape_company L N {| name := n; website := Some w |}.
Proof.
  unfold scrape_company, override_step, auto_detect, website_of. cbn [website name].
  rewrite rstrip_slash_app_slash. reflexivity.
Qed.

(** [scrape_yc] never raises: every failure is caught and ends in an (often empty) job list. *)
Theorem scrape_yc_never_raises (L : Lib) (N : Net) (slug c fb : string) :
  exists js, snd (scrape_yc L N slug c fb) = inr js.
Proof.
  unfold scrape_yc. rewrite snd_bind, snd_catch.
  destruct (snd (bind (requests_get N _) _)) as [e|[jobs|]]; cbn [snd ret];
    [|eexists; reflexivity|].
  all: rewrite snd_catch; destruct (snd (bind (fetch_html N fb false) _)) as [e'|js];
       eexists; reflexivity.
Qed.

(** The Greenhouse, Lever, Workable and Rippling adapters catch everything their API stage raises: an exception can only come from the generic fallback on the fallback URL (for Rippling, the board URL when no fallback is given). *)
Theorem adapters_raise_only_from_fallback (L : Lib) (N : Net) (slug c fb : string) (e : exn) :
  (snd (scrape_greenhouse L N slug c fb) = inl e -> snd (scrape_generic L N fb c) = inl e)
  /\ (snd (scrape_lever L N slug c fb) = inl e -> snd (scrape_generic L N fb c) = inl e)
  /\ (snd (scrape_workable L N slug c fb) = inl e -> snd (scrape_generic L N fb c) = inl e)
  /\ (snd (scrape_rippling L N slug c fb) = inl e ->
        snd (scrape_generic L N (if String.eqb fb EmptyString
                                 then "https://ats.rippling.com/" ++ slug ++ "/jobs"
                                 else fb) c) = inl e).
Proof.
  split; [|split; [|split]].
  - unfold scrape_greenhouse. rewrite snd_catch. destruct (snd (bind _ _)); [tauto|discriminate].
  - unfold scrape_lever. rewrite snd_catch. destruct (snd (bind _ _)); [tauto|discriminate].
  - unfold scrape_workable. rewrite snd_catch. destruct (snd (bind _ _)); [tauto|discriminate].
  - unfold scrape_rippling. rewrite snd_bind, snd_catch.
    destruct (snd (bind _ _)) as [e'|[jobs|]]; cbn [snd ret]; try tauto; discriminate.
Qed.

Lemma mapM_raises {A B} (f : A -> M B) (xs : list A) (x : A) (e : exn) :
  In x xs -> snd (f x) = inl e -> exists e', snd (mapM f xs) = inl e'.
Proof.
  intros Hin Hx. induction xs as [|y ys IH]; [destruct Hin|].
  cbn [mapM]. rewrite snd_bind. destruct Hin as [<-|Hin].
  - rewrite Hx. eexists. reflexivity.
  - destruct (snd (f y)) as [e'|b]; [eexists; reflexivity|].
    rewrite snd_bind. destruct (IH Hin) as [e' ->]. eexists. reflexivity.
Qed.

Lemma greenhouse_job_pure c fb j : fst (greenhouse_job c fb j) = [].
Proof.
  unfold greenhouse_job.
  apply fst_bind_pure; [apply py_get_pure|intro depts].
  apply fst_bind_pure.
  { destruct (truthy depts); [|reflexivity].
    apply fst_bind_pure; [unfold py_index0; destruct depts as [| | | [|? ?] | [|? ?] | ]; reflexivity|intro d0].
    unfold py_getitem; destruct d0; try reflexivity. destruct (assoc_last _ _); reflexivity. }
  intro. apply fst_bind_pure; [apply py_get_pure|intro].
  apply fst_bind_pure; [apply py_get_pure|intro].
  apply fst_bind_pure; [apply py_get_pure|intro].
  apply fst_bind_pure; [apply py_get_pure|intro].
  apply make_job_pure.
Qed.

(** If any Greenhouse posting lacks "departments", the conversion raises KeyError, which is caught: the adapter's result is that of the generic fallback, after the one API GET. *)
Theorem scrape_greenhouse_missing_departments (L : Lib) (N : Net) (slug c fb : string)
    (r : response) (kv : list (string * json)) (items : list json) (jkv : list (string * json)) :
  http_get N (greenhouse_api slug) = Some r ->
  json_body r = Some (JObj kv) ->
  assoc_last "jobs" kv = Some (JArr items) ->
  In (JObj jkv) items ->
  assoc_last "departments" jkv = None ->
  scrape_greenhouse L N slug c fb
  = (CGet (greenhouse_api slug) :: fst (scrape_generic L N fb c),
     snd (scrape_generic L N fb c)).
Proof.
  intros Hg Hb Hj Hin Hd.
  assert (Hx : snd (greenhouse_job c fb (JObj jkv)) = inl KeyError).
  { unfold greenhouse_job, py_get at 1. rewrite Hd. reflexivity. }
  destruct (mapM_raises (greenhouse_job c fb) items _ _ Hin Hx) as [e He].
  unfold scrape_greenhouse.
  set (body := bind (requests_get N (greenhouse_api slug)) _).
  assert (Hl : fst body = [CGet (greenhouse_api slug)]).
  { unfold body. rewrite fst_bind. unfold requests_get. cbn [fst snd]. rewrite Hg.
    cbv beta iota.
    match goal with |- app _ ?x = _ => replace x with (@nil call); [reflexivity|symmetry] end.
    apply fst_bind_pure; [unfold r_json; rewrite Hb; reflexivity|intro].
    apply fst_bind_pure; [apply py_get_pure|intro].
    apply fst_bind_pure; [unfold py_iter; destruct a0; reflexivity|intro].
    apply mapM_pure, greenhouse_job_pure. }
  assert (Hs : snd body = inl e).
  { unfold body. rewrite snd_bind. unfold requests_get. cbn [snd]. rewrite Hg.
    cbv beta iota. rewrite snd_bind. unfold r_json. rewrite Hb. cbn [snd ret].
    rewrite snd_bind. unfold py_get. rewrite Hj. cbn [snd ret].
    rewrite snd_bind. cbn [py_iter snd ret]. exact He. }
  unfold catch. destruct body as [l [e'|a]]; cbn in Hl, Hs; [|discriminate].
  subst l. destruct (scrape_generic L N fb c). reflexivity.
Qed.

Lemma scrape_greenhouse_missing_departments_witness :
  In (JObj gh_no_dept_job) [JObj gh_no_dept_job]
  /\ assoc_last "departments" gh_no_dept_job = None
  /\ scrape_greenhouse lib_schema net_gh_no_dept "acme" "Acme" "https://acme.com/careers"
     = (CGet (greenhouse_api "acme") :: fst (scrape_generic lib_schema net_gh_no_dept "https://acme.com/careers" "Acme"),
        snd (scrape_generic lib_schema net_gh_no_dept "https://acme.com/careers" "Acme")).
Proof.
  split; [left; reflexivity|]. split; [reflexivity|].
  apply (scrape_greenhouse_missing_departments lib_schema net_gh_no_dept "acme" "Acme"
           "https://acme.com/careers" (ok200 (greenhouse_api "acme") "{}" (Some gh_no_dept_board))
           [("jobs", JArr [JObj gh_no_dept_job])] [JObj gh_no_dept_job] gh_no_dept_job);
    first [reflexivity | left; reflexivity].
Defined.

Lemma make_job_general (t : string) (l u : json) (c w : string) (j : job) :
  snd (make_job (JStr t) (JStr "General") l u c w) = inr j ->
  title j = py_strip t /\ department j = "General".
Proof.
  unfold make_job. intro H. peel H. unfold ret in H. cbn [snd] in H. apply inr_inj in H. subst j.
  cbn in E. inversion E. subst. cbn in E0. inversion E0. split; reflexivity.
Qed.

Lemma quality_app1 js j : embedded_quality js ->
  department j = "General" /\ 3 <= String.length (title j) /\ stripped (title j) ->
  embedded_quality (app js [j]).
Proof. intros H1 H2. apply Forall_app. split; [exact H1|constructor; [exact H2|constructor]]. Qed.

Lemma ltb3_false a b t : (a || b || Nat.ltb (String.length t) 3)%bool = false -> 3 <= String.length t.
Proof. intro H. apply orb_false_iff in H as [_ H]. apply Nat.ltb_ge, H. Qed.

Lemma embedded_step1_quality L u c s a s' :
  embedded_quality (fst s) -> snd (embedded_step1 L u c s a) = inr s' -> embedded_quality (fst s').
Proof.
  destruct s as [jobs seen]. unfold embedded_step1. intros I H. peel H.
  all: unfold ret in H; cbn [snd] in H; apply inr_inj in H; subst; cbn [fst] in *; try assumption.
  all: apply quality_app1; [assumption|].
  all: match goal with E : snd (make_job _ _ _ _ _ _) = inr _ |- _ => apply make_job_general in E as [-> ->] end.
  all: rewrite py_strip_idem; split; [reflexivity|split; [eapply ltb3_false; eassumption|apply stripped_of_strip, py_strip_idem]].
Qed.

Lemma embedded_step2_quality L u c sl s a s' :
  embedded_quality (fst s) -> snd (embedded_step2 L u c sl s a) = inr s' -> embedded_quality (fst s').
Proof.
  destruct s as [jobs seen]. unfold embedded_step2. intros I H. peel H.
  all: unfold ret in H; cbn [snd] in H; apply inr_inj in H; subst; cbn [fst] in *; try assumption.
  all: apply quality_app1; [assumption|].
  all: match goal with E : snd (make_job _ _ _ _ _ _) = inr _ |- _ => apply make_job_general in E as [-> ->] end.
  all: rewrite get_text_stripped; split; [reflexivity|split; [eapply ltb3_false; eassumption|apply stripped_of_strip, get_text_stripped]].
Qed.

(** Every job of [scrape_ashby_embedded] is in department "General" and has a stripped title of at least 3 characters. *)
Theorem scrape_ashby_embedded_quality (L : Lib) (N : Net) (u c : string) (js : list job) :
  snd (scrape_ashby_embedded L N u c) = inr js ->
  Forall (fun j => department j = "General" /\ 3 <= String.length (title j) /\ stripped (title j)) js.
Proof.
  unfold scrape_ashby_embedded. intro H. peel H.
  all: repeat match goal with
  | E : snd (foldM (embedded_step1 ?L ?u ?c) ?s0 ?xs) = inr ?s1 |- _ =>
      pose proof (foldM_snd_inv (fun s => embedded_quality (fst s)) _ (embedded_step1_quality L u c) xs s0 s1 (Forall_nil _) E); clear E
  | E : snd (foldM (embedded_step2 ?L ?u ?c ?sl) ?s0 ?xs) = inr ?s1 |- _ =>
      pose proof (foldM_snd_inv (fun s => embedded_quality (fst s)) _ (embedded_step2_quality L u c sl) xs s0 s1 ltac:(assumption) E); clear E
  end.
  all: unfold ret in H; cbn [snd] in H; apply inr_inj in H; subst; cbn [fst] in *;
       first [exact (Forall_nil _) | assumption].
Qed.

Lemma scrape_ashby_embedded_quality_witness :
  let js := match snd (scrape_ashby_embedded lib_embedded net_embedded "https://acme.com/careers" "Acme")
            with inr js => js | inl _ => [] end in
  snd (scrape_ashby_embedded lib_embedded net_embedded "https://acme.com/careers" "Acme") = inr js
  /\ js <> []
  /\ Forall (fun j => department j = "General" /\ 3 <= String.length (title j) /\ stripped (title j)) js.
Proof.
  cbv zeta. split; [vm_compute; reflexivity|]. split; [vm_compute; discriminate|].
  apply (scrape_ashby_embedded_quality lib_embedded net_embedded "https://acme.com/careers" "Acme").
  vm_compute; reflexivity.
Defined.

Lemma foldM_len {T A} (f : list job * T -> A -> M (list job * T)) :
  (forall s a s', snd (f s a) = inr s' -> length (fst s') <= S (length (fst s))) ->
  forall xs s s', snd (foldM f s xs) = inr s' -> length (fst s') <= length (fst s) + length xs.
Proof.
  intros Hf xs. induction xs as [|a xs IH]; intros s s' H.
  - cbn in H. inversion H. subst. cbn. lia.
  - cbn [foldM] in H. rewrite snd_bind in H.
    destruct (snd (f s a)) as [e|s1] eqn:E; [discriminate|].
    specialize (IH s1 s' H). specialize (Hf s a s1 E). cbn [length]. lia.
Qed.

Lemma class_step_len L u c s a s' :
  snd (class_step L u c s a) = inr s' -> length (fst s') <= S (length (fst s)).
Proof.
  destruct s as [jobs seen]. unfold class_step. intro H. peel H.
  all: unfold ret in H; cbn [snd] in H; apply inr_inj in H; subst; cbn [fst];
       rewrite ?length_app; cbn [length]; lia.
Qed.

(** When the page is fetched, has no embedded-widget marker and no schema.org postings, [scrape_generic] returns at most 200 jobs. *)
Theorem scrape_generic_bounded (L : Lib) (N : Net) (u c html : string) (l : list call)
    (js : list job) :
  fetch_html N u true = (l, inr (Some html)) ->
  py_contains "ashby_jid=" html = false ->
  schema_jobs L u c (parse L html) = [] ->
  snd (scrape_generic L N u c) = inr js ->
  length js <= 200.
Proof.
  intros Hf Hm Hs H. unfold scrape_generic in H.
  destruct (String.eqb u EmptyString); [cbn in H; inversion H; subst; cbn; lia|].
  rewrite snd_bind, Hf in H. cbn [snd] in H.
  destruct (String.eqb html EmptyString); [cbn in H; inversion H; subst; cbn; lia|].
  rewrite Hm in H. cbv zeta in H. rewrite Hs in H. cbn [nonempty] in H.
  rewrite snd_bind in H.
  destruct (snd (foldM (class_step L u c) _ _)) as [e|[jobs seen]] eqn:E; [discriminate|].
  cbv beta iota in H.
  pose proof (foldM_len _ (class_step_len L u c) _ _ _ E) as Hlen.
  rewrite length_firstn in Hlen. cbn [fst length] in Hlen.
  destruct (nonempty jobs).
  - unfold ret in H. cbn [snd] in H. apply inr_inj in H. subst. lia.
  - rewrite snd_bind in H. destruct (snd (foldM (link_step L u c) _ _)) as [e|[jobs' ?]]; [discriminate|].
    unfold ret in H. cbn [snd] in H. apply inr_inj in H. subst. rewrite length_firstn. lia.
Qed.

Lemma scrape_generic_bounded_witness :
  let js := match snd (scrape_generic lib_class net_class "https://acme.com/careers" "Acme")
            with inr js => js | inl _ => [] end in
  fetch_html net_class "https://acme.com/careers" true
    = ([CGet "https://acme.com/careers"], inr (Some class_page))
  /\ schema_jobs lib_class "https://acme.com/careers" "Acme" (parse lib_class class_page) = []
  /\ snd (scrape_generic lib_class net_class "https://acme.com/careers" "Acme") = inr js
  /\ js <> []
  /\ length js <= 200.
Proof.
  cbv zeta. split; [vm_compute; reflexivity|]. split; [vm_compute; reflexivity|].
  split; [vm_compute; reflexivity|]. split; [vm_compute; discriminate|].
  apply (scrape_generic_bounded lib_class net_class "https://acme.com/careers" "Acme" class_page
           [CGet "https://acme.com/careers"]); vm_compute; reflexivity.
Defined.

Lemma assoc_last_in {V} (k : string) (kv : list (string * V)) (v : V) :
  assoc_last k kv = Some v -> In v (map snd kv).
Proof.
  induction kv as [|[k' v'] kv IH]; cbn; [discriminate|].
  destruct (assoc_last k kv) as [w|]; intro H.
  - right. apply IH. congruence.
  - destruct (String.eqb k k'); [left; congruence|discriminate].
Qed.

(** Every [KNOWN_ATS] entry routes to its adapter: the embedded-widget entries have no slug and go to [scrape_ashby_embedded] on their URL; all others have a non-empty slug and go to the adapter of their kind with the entry's URL as fallback. *)
Theorem override_routes_to_adapter (L : Lib) (N : Net) (nm c : string)
    (k : ats_kind) (s : option string) (u : string) :
  known_ats_get nm = Some (k, s, u) ->
  (k = AshbyEmbedded /\ s = None
   /\ route_to_scraper L N (Some k) s c u = scrape_ashby_embedded L N u c)
  \/ (exists sl, s = Some sl /\ sl <> EmptyString /\ k <> AshbyEmbedded
      /\ route_to_scraper L N (Some k) s c u
         = match k with
           | Greenhouse => scrape_greenhouse L N sl c u
           | Lever => scrape_lever L N sl c u
           | Ashby => scrape_ashby L N sl c u
           | Workable => scrape_workable L N sl c u
           | YC => scrape_yc L N sl c u
           | Rippling => scrape_rippling L N sl c u
           | AshbyEmbedded => scrape_ashby_embedded L N u c
           end).
Proof.
  intro H. apply assoc_last_in in H.
  set (ok := fun (e : ats_kind * option string * string) =>
         match e with
         | (AshbyEmbedded, None, _) => true
         | (AshbyEmbedded, Some _, _) => false
         | (_, Some sl, _) => negb (String.eqb sl EmptyString)
         | (_, None, _) => false
         end).
  assert (Hall : forallb ok (map snd KNOWN_ATS) = true) by (vm_compute; reflexivity).
  rewrite forallb_forall in Hall. specialize (Hall _ H). unfold ok in Hall.
  destruct k; destruct s as [sl|]; try discriminate.
  all: try (left; repeat split; reflexivity).
  all: right; exists sl; apply negb_true_iff, String.eqb_neq in Hall;
       repeat split; try assumption; try discriminate;
       unfold route_to_scraper; apply String.eqb_neq in Hall; rewrite Hall; reflexivity.
Qed.

Lemma override_routes_to_adapter_witness :
  known_ats_get "Faire" = Some (Greenhouse, Some "Faire", "https://boards.greenhouse.io/faire")
  /\ ((Greenhouse = AshbyEmbedded /\ Some "Faire" = None
       /\ route_to_scraper lib0 net_faire (Some Greenhouse) (Some "Faire") "Faire"
            "https://boards.greenhouse.io/faire"
          = scrape_ashby_embedded lib0 net_faire "https://boards.greenhouse.io/faire" "Faire")
      \/ (exists sl, Some "Faire" = Some sl /\ sl <> EmptyString /\ Greenhouse <> AshbyEmbedded
          /\ route_to_scraper lib0 net_faire (Some Greenhouse) (Some "Faire") "Faire"
               "https://boards.greenhouse.io/faire"
             = scrape_greenhouse lib0 net_faire sl "Faire" "https://boards.greenhouse.io/faire")).
Proof.
  split; [vm_compute; reflexivity|].
  apply (override_routes_to_adapter lib0 net_faire "Faire" "Faire").
  vm_compute; reflexivity.
Defined.

(** An embedded-widget detection is routed through [scrape_generic]: the page is fetched again (with JS) and, as it still carries the marker, scraped by [scrape_ashby_embedded]. *)
Theorem embedded_detection_via_generic (L : Lib) (N : Net) (html h u c : string)
    (s : option string) (l : list call) :
  detect_ats_from_html html u = (Some AshbyEmbedded, s) ->
  u <> EmptyString ->
  fetch_html N u true = (l, inr (Some h)) ->
  py_contains "ashby_jid=" h = true ->
  route_to_scraper L N (Some AshbyEmbedded) s c u
  = (app l (fst (scrape_ashby_embedded L N u c)), snd (scrape_ashby_embedded L N u c)).
Proof.
  intros Hd Hu Hf Hm.
  pose proof (detect_ats_from_html_slug html u) as Hs. rewrite Hd in Hs. subst s.
  unfold route_to_scraper. apply String.eqb_neq in Hu. rewrite Hu.
  unfold scrape_generic. rewrite Hu. unfold bind at 1. rewrite Hf.
  assert (Hh : String.eqb h EmptyString = false).
  { apply String.eqb_neq. intros ->. discriminate Hm. }
  rewrite Hh, Hm. destruct (scrape_ashby_embedded L N u c). reflexivity.
Qed.

Lemma embedded_detection_via_generic_witness :
  detect_ats_from_html embedded_page "https://acme.com/careers"
    = (Some AshbyEmbedded, Some "https://acme.com/careers")
  /\ route_to_scraper lib_embedded net_embedded (Some AshbyEmbedded) (Some "https://acme.com/careers")
       "Acme" "https://acme.com/careers"
     = (app [CGet "https://acme.com/careers"]
            (fst (scrape_ashby_embedded lib_embedded net_embedded "https://acme.com/careers" "Acme")),
        snd (scrape_ashby_embedded lib_embedded net_embedded "https://acme.com/careers" "Acme")).
Proof.
  split; [vm_compute; reflexivity|].
  apply (embedded_detection_via_generic lib_embedded net_embedded embedded_page embedded_page
           "https://acme.com/careers" "Acme" (Some "https://acme.com/careers")
           [CGet "https://acme.com/careers"]);
    first [vm_compute; reflexivity | discriminate].
Defined.

Lemma main_fold (L : Lib) (N : Net) (exn_str : exn -> string) (cs : list company_target) :
  forall calls aj fl,
  fold_left (main_step L N exn_str) cs (calls, (aj, fl))
  = (app calls (concat (map (fun ct => fst (scrape_company L N ct)) cs)),
     (app aj (concat (map (jobs_of L N) cs)),
      app fl (concat (map (failures_of L N exn_str) cs)))).
Proof.
  induction cs as [|ct cs IH]; intros calls aj fl; cbn [fold_left map concat].
  - rewrite !app_nil_r. reflexivity.
  - unfold main_step at 2. unfold jobs_of at 1, failures_of at 1.
    destruct (scrape_company L N ct) as [l [e|[js [er|]]]]; cbn [fst snd];
      [| destruct (String.eqb er EmptyString) |]; rewrite IH;
      rewrite ?app_assoc, ?app_nil_r, ?app_assoc; reflexivity.
Qed.

(** [main] handles each company on its own: the output jobs, failures and calls are the concatenation of each company's (an exception of one company is recorded as its failure and the loop goes on); the totals count jobs and companies, and there are at most as many failures as companies. *)
Theorem main_run_isolates_companies (L : Lib) (N : Net) (exn_str : exn -> string)
    (cs : list company_target) :
  let out := snd (main_run L N exn_str cs) in
  jobs out = concat (map (jobs_of L N) cs)
  /\ failed_companies out = concat (map (failures_of L N exn_str) cs)
  /\ fst (main_run L N exn_str cs) = concat (map (fun ct => fst (scrape_company L N ct)) cs)
  /\ total_jobs out = length (jobs out)
  /\ total_companies out = length cs
  /\ length (failed_companies out) <= length cs.
Proof.
  unfold main_run. rewrite main_fold. cbn.
  split; [reflexivity|]. split; [reflexivity|]. split; [reflexivity|].
  split; [reflexivity|]. split; [reflexivity|].
  induction cs as [|ct cs IH]; cbn; [lia|].
  rewrite length_app. unfold failures_of at 1.
  destruct (snd (scrape_company L N ct)) as [e|[js [er|]]]; cbn;
    [| destruct (String.eqb er EmptyString) |]; cbn; lia.
Qed.

(** [companies_with_jobs] is at most [total_companies]: every output job's company is the name of one of the input companies. *)
Theorem main_companies_with_jobs_bound (L : Lib) (N : Net) (exn_str : exn -> string)
    (cs : list company_target) :
  let out := snd (main_run L N exn_str cs) in
  companies_with_jobs out <= total_companies out
  /\ incl (map company (jobs out)) (map name cs).
Proof.
  unfold main_run. rewrite main_fold. cbn.
  assert (Hincl : incl (map company (concat (map (jobs_of L N) cs))) (map name cs)).
  { induction cs as [|ct cs IH]; cbn; [intros x []|].
    rewrite map_app. apply incl_app; [|apply incl_tl, IH].
    unfold jobs_of. destruct (snd (scrape_company L N ct)) as [e|[js r]] eqn:E; [intros x []|].
    pose proof (scrape_company_jobs_owned L N ct js r E) as Hown.
    intros x Hx. apply in_map_iff in Hx as [j [<- Hj]].
    rewrite Forall_forall in Hown. rewrite (proj1 (Hown j Hj)). left. reflexivity. }
  split; [|exact Hincl].
  rewrite <- (length_map name cs).
  apply NoDup_incl_length; [apply NoDup_nodup|].
  intros x Hx. apply nodup_In in Hx. apply Hincl, Hx.
Qed.

Lemma try_paths_total L N base paths : exists r, snd (try_paths L N base paths) = inr r.
Proof.
  induction paths as [|p ps IH]; cbn [try_paths]; [eexists; reflexivity|].
  rewrite snd_bind. unfold try_path at 1. rewrite snd_catch.
  destruct (snd (bind (requests_get N _) _)) as [e|[r|]]; cbn [snd ret]; try exact IH;
    eexists; reflexivity.
Qed.

Lemma try_paths_shape L N base paths r :
  snd (try_paths L N base paths) = inr r ->
  match r with
  | (None, k, s, h) => k = None /\ s = None /\ h = None
  | (Some _, _, _, _) => True
  end.
Proof.
  revert r. induction paths as [|p ps IH]; intros r H; cbn [try_paths] in H.
  - cbn in H. inversion H. subst. repeat split.
  - rewrite snd_bind in H. destruct (snd (try_path L N base p)) as [e|[res|]] eqn:E;
      cbv beta iota in H; [discriminate| |exact (IH r H)].
    unfold ret in H. cbn [snd] in H. apply inr_inj in H. subst res.
    unfold try_path in E. rewrite snd_catch in E.
    destruct (snd (bind (requests_get N _) _)) as [e|o] eqn:E2; [cbn in E; discriminate|].
    apply inr_inj in E. subst o. peel E2.
    all: unfold ret in E2; cbn [snd] in E2; apply inr_inj in E2; inversion E2; subst.
    all: first [exact I | match goal with |- context [of_found ?f] => destruct f as [[[? ?] ?] ?]; exact I end].
Qed.

(** [find_jobs_page] reports an ATS, slug or HTML only together with a jobs URL; when the homepage cannot be fetched it never raises (probing the common paths catches every error). *)
Theorem find_jobs_page_shape (L : Lib) (N : Net) (base : string) :
  (forall r, snd (find_jobs_page L N base) = inr r ->
     match r with
     | (None, k, s, h) => k = None /\ s = None /\ h = None
     | (Some _, _, _, _) => True
     end)
  /\ (snd (fetch_html N (rstrip_slash base) false) = inr None ->
      exists r, snd (find_jobs_page L N base) = inr r).
Proof.
  split.
  - intros r H. unfold find_jobs_page in H. cbv zeta in H.
    rewrite snd_bind in H. destruct (snd (fetch_html N _ false)) as [e|h] eqn:E; [discriminate|].
    cbv beta iota in H. rewrite snd_bind in H.
    match type of H with context [match snd ?m with inl _ => _ | inr _ => _ end] =>
      destruct (snd m) as [e|[f|]] end; cbv beta iota in H;
      [discriminate| |exact (try_paths_shape L N _ _ r H)].
    unfold ret in H. cbn [snd] in H. apply inr_inj in H. subst r.
    destruct f as [[[? ?] ?] ?]. exact I.
  - intro Hh. unfold find_jobs_page. cbv zeta. rewrite snd_bind, Hh. cbv beta iota.
    rewrite snd_bind. cbn [snd ret]. apply try_paths_total.
Qed.
